(** * Annotation table of the database-name labelling form (app.py)

    A shallow embedding of the CSV-backed annotation table, the Dropbox
    mirror, the item selector and the Yes/No click handler of [app.py],
    with the properties the design document states about them.

    Modelling conventions.
    - A pandas [DataFrame] is a header (the ordered column names) and an
      ordered list of rows; a row is a finite map from column name to
      cell value.  A key that is absent from a row is a missing cell
      ([NaN] / [pd.NA]), so [isna] is "no binding" and [notna] is "some
      binding".
    - A cell value is a number or a text.  The numbers the program stores
      are the labels 0/1 and the GPT flag; they are kept as integers.
    - The file [gpt_matches.csv] is represented by the frame that
      [pd.read_csv] returns for it ([None] when the file does not exist),
      the remote Dropbox object likewise.
    - Exceptions are values: a computation returns [Return a] or
      [Raise e]. *)

From Stdlib Require Import ZArith String List Lia.
From stdpp Require Import gmap strings list fin_maps pretty.

Local Open Scope string_scope.
Local Open Scope list_scope.

(* ===================================================================== *)
(** ** Cells, rows, frames                                                *)
(* ===================================================================== *)

Inductive value :=
  | Num (z : Z)
  | Str (s : string).

#[global] Instance value_eq_dec : EqDecision value.
Proof. solve_decision. Defined.

(** A cell is [option value]; [None] is the missing cell. *)
Abbreviation cell := (option value).
Abbreviation row := (gmap string value).

Record frame := Frame { columns : list string; rows : list row }.

(** Python exceptions the modelled code can raise. *)
Inductive exn :=
  | KeyError (col : string)
  | ValueError (text : string)
  | IndexError
  | FileNotFoundError
  | ApiError
  | OtherError (msg : string).

Inductive result (A : Type) :=
  | Return (a : A)
  | Raise (e : exn).
Arguments Return {A} a.
Arguments Raise {A} e.

(** The exception monad, with stdpp's [x ← m; k] notation. *)
#[global] Instance result_bind : MBind result := λ A B k m,
  match m with
  | Return a => k a
  | Raise e => Raise e
  end.

#[global] Instance result_ret : MRet result := λ A a, Return a.

(** [traverse f l] runs [f] on every element, left to right, and stops at
    the first exception. *)
Fixpoint traverse {A B} (f : A → result B) (l : list A) : result (list B) :=
  match l with
  | [] => Return []
  | a :: l' => b ← f a ; bs ← traverse f l' ; Return (b :: bs)
  end.

(* ===================================================================== *)
(** ** The pandas operations the program uses                             *)
(* ===================================================================== *)

Module Pandas.

(** [str(x)] for a cell: a missing cell prints as "nan". *)
Definition astype_str (c : cell) : string :=
  match c with
  | None => "nan"
  | Some (Num z) => pretty z
  | Some (Str s) => s
  end.

(** [df[c]]: column access raises [KeyError] for an unknown column. *)
Definition require_column (c : string) (df : frame) : result unit :=
  if bool_decide (c ∈ columns df) then Return tt else Raise (KeyError c).

(** [df["ID"] = df["ID"].astype(str)] *)
Definition coerce_ID (r : row) : row :=
  <["ID" := Str (astype_str (r !! "ID"))]> r.

Definition astype_str_ID (df : frame) : result frame :=
  _ ← require_column "ID" df ;
  Return (Frame (columns df) (coerce_ID <$> rows df)).

(** [df.drop_duplicates(subset=["ID"], keep="first")]; [seen] holds the
    ID cells of the rows already kept. *)
Fixpoint drop_duplicates_from (seen : list cell) (rs : list row) : list row :=
  match rs with
  | [] => []
  | r :: rs' =>
      if bool_decide (r !! "ID" ∈ seen)
      then drop_duplicates_from seen rs'
      else r :: drop_duplicates_from (r !! "ID" :: seen) rs'
  end.

Definition drop_duplicates (df : frame) : frame :=
  Frame (columns df) (drop_duplicates_from [] (rows df)).

(** [df[df["ID"].isin(ids)]] *)
Definition isin (ids : list string) (r : row) : Prop :=
  ∃ i, i ∈ ids ∧ r !! "ID" = Some (Str i).

#[global] Instance isin_dec ids r : Decision (isin ids r).
Proof.
  unfold isin.
  refine (cast_if (decide (Exists (λ i, r !! "ID" = Some (Str i)) ids)));
    rewrite Exists_exists in *; assumption.
Defined.

Definition filter_isin (ids : list string) (df : frame) : frame :=
  Frame (columns df) (filter (isin ids) (rows df)).

(** [pd.DataFrame({"ID": ids}).merge(df, on="ID", how="left")]: for each
    id of the left frame, in its order, the rows of [df] with that ID in
    their order, or one row holding only the ID when there is none.  The
    key column comes first, then the other columns of [df]. *)
Definition has_ID (i : string) (r : row) : Prop := r !! "ID" = Some (Str i).

#[global] Instance has_ID_dec i r : Decision (has_ID i r).
Proof. unfold has_ID. apply _. Defined.

Definition merge_row (rs : list row) (i : string) : list row :=
  match filter (has_ID i) rs with
  | [] => [ {[ "ID" := Str i ]} ]
  | ms => ms
  end.

Definition merge_left (ids : list string) (df : frame) : frame :=
  Frame ("ID" :: filter (λ c, c ≠ "ID") (columns df))
        (ids ≫= merge_row (rows df)).

(** [df[c] = v]: a new column is appended to the header, an existing one
    is overwritten in place. *)
Definition set_header (c : string) (cols : list string) : list string :=
  if bool_decide (c ∈ cols) then cols else cols ++ [c].

Definition assign_column (c : string) (v : cell) (df : frame) : frame :=
  Frame (set_header c (columns df))
        ((λ r : row, match v with
                     | Some x => <[c := x]> r
                     | None => delete c r
                     end) <$> rows df).

(** [df["GPT"].fillna(0).astype(int)] on one cell: text that is not a
    number makes [astype(int)] raise. *)
Definition fill_GPT (r : row) : result row :=
  match r !! "GPT" with
  | None => Return (<["GPT" := Num 0]> r)
  | Some (Num _) => Return r
  | Some (Str s) => Raise (ValueError s)
  end.

End Pandas.

(* ===================================================================== *)
(** ** Loading and saving the annotation table                            *)
(* ===================================================================== *)

(** The frame built when the CSV does not exist yet. *)
Definition fresh_frame (ids : list string) : frame :=
  Frame ["ID"; "GPT"] ((λ i, {[ "ID" := Str i; "GPT" := Num 0 ]}) <$> ids).

(** [load_annotations()], lines 79-115.  [ids] is the id column of the
    sample store, [csv] the state of [gpt_matches.csv]. *)
Definition load_annotations (ids : list string) (csv : option frame)
  : result frame :=
  let ann_df := match csv with
                | Some f => f
                | None => fresh_frame ids
                end in
  ann_df ← Pandas.astype_str_ID ann_df ;
  let ann_df := Pandas.drop_duplicates ann_df in
  let ann_df := Pandas.filter_isin ids ann_df in
  let ann_df := Pandas.merge_left ids ann_df in
  let ann_df := if bool_decide ("GPT" ∈ columns ann_df) then ann_df
                else Pandas.assign_column "GPT" (Some (Num 0)) ann_df in
  rs ← traverse Pandas.fill_GPT (rows ann_df) ;
  Return (Frame (columns ann_df) rs).

(** [save_annotations(df)], lines 118-127: the frame written to the CSV. *)
Definition save_annotations (df : frame) : result frame :=
  df ← Pandas.astype_str_ID df ;
  Return (Pandas.drop_duplicates df).

(* ===================================================================== *)
(** ** The world the program runs in                                      *)
(* ===================================================================== *)

(** [st.session_state["current_id"]]: the key may be absent, hold [None],
    or hold an id. *)
Inductive slot :=
  | Missing
  | PyNone
  | Held (id : string).

(** What a run does, in program order (oldest first). *)
Inductive event :=
  | Call_load_annotations
  | Call_save_annotations
  | Call_upload_to_dropbox
  | Call_files_upload
  | Call_files_download
  | Call_random_choice (seq : list string)
  | Assign_label (id user : string) (v : Z)
  | Assign_current_id (s : slot)
  | St_info (msg : string)
  | St_warning (msg : string)
  | St_error (msg : string)
  | St_success (msg : string)
  | St_rerun
  | St_stop.

Record world := World {
  csv : option frame;        (* the local file gpt_matches.csv *)
  dropbox : option frame;    (* the object at REMOTE_CSV_PATH *)
  current_id : slot;         (* st.session_state["current_id"] *)
  events : list event;
}.

(** Stateful, fallible code: a function of the world that returns a value
    or raises, and the world it leaves. *)
Definition prog (A : Type) : Type := world → result A * world.

#[global] Instance prog_bind : MBind prog := λ A B k m w,
  match m w with
  | (Return a, w') => k a w'
  | (Raise e, w') => (Raise e, w')
  end.

#[global] Instance prog_ret : MRet prog := λ A a w, (Return a, w).

Definition lift {A} (r : result A) : prog A := λ w, (r, w).

(** A computation that reads the world and leaves it as it is. *)
Definition reads {A} (f : world → result A) : prog A := λ w, (f w, w).

(** [try: m except Exception as e: h e] *)
Definition try_except {A} (m : prog A) (h : exn → prog A) : prog A := λ w,
  match m w with
  | (Raise e, w') => h e w'
  | done => done
  end.

(** The world after some more events. *)
Definition with_events (w : world) (evs : list event) : world :=
  World (csv w) (dropbox w) (current_id w) (events w ++ evs).

Definition emit (e : event) : prog unit := λ w,
  (Return tt, with_events w [e]).

Definition read_csv_file : prog frame :=
  reads (λ w, match csv w with
              | Some f => Return f
              | None => Raise FileNotFoundError
              end).

Definition write_csv_file (f : frame) : prog unit := λ w,
  (Return tt, World (Some f) (dropbox w) (current_id w) (events w)).

Definition write_dropbox (f : frame) : prog unit := λ w,
  (Return tt, World (csv w) (Some f) (current_id w) (events w)).

Definition set_current_id (s : slot) : prog unit := λ w,
  (Return tt, World (csv w) (dropbox w) s (events w ++ [Assign_current_id s])).

Definition get_current_id : prog slot := reads (λ w, Return (current_id w)).

(** [str(e)] in the warnings. *)
Definition exn_message (e : exn) : string :=
  match e with
  | KeyError c => c
  | ValueError s => "invalid literal for int(): " +:+ s
  | IndexError => "Cannot choose from an empty sequence"
  | FileNotFoundError => "No such file or directory: gpt_matches.csv"
  | ApiError => "ApiError"
  | OtherError m => m
  end.

(* ===================================================================== *)
(** ** Remote sync                                                        *)
(* ===================================================================== *)

(** The Dropbox client.  [net] is what the network does to this call:
    [None] lets it through, [Some e] makes it raise [e]. *)
Definition files_upload (net : option exn) (content : frame) : prog unit :=
  _ ← emit Call_files_upload;
  match net with
  | Some e => lift (Raise e)
  | None => write_dropbox content
  end.

Definition files_download (net : option exn) : prog frame :=
  _ ← emit Call_files_download;
  match net with
  | Some e => lift (Raise e)
  | None => reads (λ w, match dropbox w with
                        | Some f => Return f
                        | None => Raise ApiError
                        end)
  end.

(** [upload_to_dropbox], lines 13-23. *)
Definition upload_to_dropbox (net : option exn) : prog unit :=
  _ ← emit Call_upload_to_dropbox;
  try_except
    (content ← read_csv_file; files_upload net content)
    (λ e, emit (St_warning ("Could not upload CSV to Dropbox: " +:+ exn_message e))).

(** [download_from_dropbox], lines 26-40. *)
Definition download_from_dropbox (net : option exn) : prog bool :=
  res ← try_except
          (content ← files_download net; mret (Some content))
          (λ e, match e with
                | ApiError => mret None
                | _ => _ ← emit (St_warning ("Could not download CSV from Dropbox: "
                                             +:+ exn_message e));
                       mret None
                end);
  match res with
  | None => mret false
  | Some content => _ ← write_csv_file content; mret true
  end.

(** Lines 44-47, the first statements of every run of the script. *)
Definition startup (net : option exn) : prog unit :=
  ok ← download_from_dropbox net;
  if ok : bool then emit (St_info "Loaded latest CSV from Dropbox.")
  else emit (St_warning "No Dropbox CSV found — using local file.").

(* ===================================================================== *)
(** ** The table manager inside the world                                 *)
(* ===================================================================== *)

Definition load (ids : list string) : prog frame :=
  _ ← emit Call_load_annotations;
  reads (λ w, load_annotations ids (csv w)).

Definition save (df : frame) : prog unit :=
  _ ← emit Call_save_annotations;
  out ← lift (save_annotations df);
  write_csv_file out.

(* ===================================================================== *)
(** ** Session / item selector (lines 205-248)                            *)
(* ===================================================================== *)

(** The id text of a row.  In a loaded table every ID cell is a text
    (lemma [load_annotations_ID_texts]), and this is that text. *)
Definition ID_of (r : row) : string := Pandas.astype_str (r !! "ID").

(** [ann_df.loc[user_col.isna(), "ID"].tolist()] *)
Definition remaining_ids (username : string) (df : frame) : list string :=
  ID_of <$> filter (λ r : row, r !! username = None) (rows df).

(** [user_col.notna().sum()] *)
Definition already_labeled (username : string) (df : frame) : nat :=
  length (filter (λ r : row, is_Some (r !! username)) (rows df)).

(** [random.choice(seq)]: [k] is the index the generator draws. *)
Definition random_choice (k : nat) (seq : list string) : prog string :=
  _ ← emit (Call_random_choice seq);
  lift (match seq !! (k mod length seq) with
        | Some x => Return x
        | None => Raise IndexError
        end).

(** What the page shows once the selector ran. *)
Inductive view :=
  | Completed
  | NoEntry (id : string)
  | Showing (id : string).

(** Lines 205-212: load, and add the user's column on first visit. *)
Definition load_for_user (ids : list string) (username : string) : prog frame :=
  ann_df ← load ids;
  if bool_decide (username ∈ columns ann_df) then mret ann_df
  else _ ← save (Pandas.assign_column username None ann_df); load ids.

Definition pick (k : nat) (seq : list string) : prog string :=
  c ← random_choice k seq;
  _ ← set_current_id (Held c);
  mret c.

(** Lines 244-248: the sample of the current id is looked up. *)
Definition show_item (ids : list string) (cur : string) : prog view :=
  if bool_decide (cur ∈ ids) then mret (Showing cur)
  else
    _ ← emit (St_error ("No entry found in sample_200.json for ID " +:+ cur +:+ "."));
    _ ← emit St_stop;
    mret (NoEntry cur).

(** Lines 217-248, on the table [ann_df] that was loaded.  Statements that
    only render (title, instructions, progress bar) are left out. *)
Definition choose_item (ids : list string) (k : nat) (username : string)
    (ann_df : frame) : prog view :=
  _ ← lift (Pandas.require_column username ann_df);
  let total_entries := length (rows ann_df) in
  let remaining := total_entries - already_labeled username ann_df in
  if bool_decide (remaining = 0) then
    _ ← emit (St_success "You have labeled all 200 entries. Thank you!");
    _ ← emit St_stop;
    mret Completed
  else
    let remaining_ids := remaining_ids username ann_df in
    held ← get_current_id;
    cur ← match held with
          | Held i => if bool_decide (i ∈ remaining_ids) then mret i
                      else pick k remaining_ids
          | Missing | PyNone => pick k remaining_ids
          end;
    show_item ids cur.

(** Lines 205-248. *)
Definition select_item (ids : list string) (k : nat) (username : string)
  : prog view :=
  ann_df ← load_for_user ids username;
  choose_item ids k username ann_df.

(* ===================================================================== *)
(** ** The click handler (lines 280-313)                                  *)
(* ===================================================================== *)

(** [df.loc[df["ID"] == id, username] = v] *)
Definition set_cells (id username : string) (v : Z) (df : frame) : frame :=
  Frame (columns df)
        ((λ r : row, if decide (Pandas.has_ID id r)
                     then <[username := Num v]> r else r) <$> rows df).

(** Lines 287-288: the user's column is added when missing. *)
Definition ensure_column (username : string) (df : frame) : frame :=
  if bool_decide (username ∈ columns df) then df
  else Pandas.assign_column username None df.

(** Lines 287-298, the part of the handler that works on the table: the
    user's column is added when missing, the row is looked up, and the
    cell is written only when it is missing.  [None] is the "ID not
    found" exit; the flag tells whether the cell was written. *)
Definition set_label (ann_df_local : frame) (id username : string) (value : Z)
  : result (option (frame * bool)) :=
  let ann_df_local := ensure_column username ann_df_local in
  _ ← Pandas.require_column "ID" ann_df_local;
  match filter (Pandas.has_ID id) (rows ann_df_local) with
  | [] => Return None
  | r :: _ =>
      match r !! username with
      | None => Return (Some (set_cells id username value ann_df_local, true))
      | Some _ => Return (Some (ann_df_local, false))
      end
  end.

Definition update_label_and_rerun (ids : list string) (net : option exn)
    (username current_id : string) (label_value : Z) : prog unit :=
  ann_df_local ← load ids;
  outcome ← lift (set_label ann_df_local current_id username label_value);
  match outcome with
  | None =>
      emit (St_error ("Internal error: ID " +:+ current_id
                      +:+ " not found in annotation file."))
  | Some (ann_df_local, changed) =>
      _ ← (if changed : bool then
             _ ← emit (Assign_label current_id username label_value);
             _ ← save ann_df_local;
             upload_to_dropbox net
           else mret tt);
      _ ← set_current_id PyNone;
      emit St_rerun
  end.

Inductive button := Yes | No.

Definition label_of (b : button) : Z :=
  match b with Yes => 1 | No => 0 end.

(** Lines 309-313. *)
Definition on_click (ids : list string) (net : option exn)
    (username current_id : string) (b : button) : prog unit :=
  update_label_and_rerun ids net username current_id (label_of b).

(** A run of the script up to the page being shown: the pull, then the
    selector. *)
Definition render (ids : list string) (net : option exn) (k : nat)
    (username : string) : prog view :=
  _ ← startup net;
  select_item ids k username.

(** One run of the script: the page is rendered, and the handler runs
    when a button was pressed on it. *)
Definition script (ids : list string) (net_pull net_push : option exn)
    (k : nat) (username : string) (click : option button) : prog unit :=
  v ← render ids net_pull k username;
  match v, click with
  | Showing cur, Some b => on_click ids net_push username cur b
  | _, _ => mret tt
  end.

(* ===================================================================== *)
(** ** Reconciliation, stated per sample id                               *)
(* ===================================================================== *)

(** The first stored row whose ID, read as text, is [i]. *)
Definition first_with_ID (i : string) (rs : list row) : option row :=
  head (filter (λ r, ID_of r = i) rs).

(** The header of a loaded table: ID first, the other stored columns in
    their order, and GPT at the end when the store had none. *)
Definition reconcile_columns (cols : list string) : list string :=
  let merged := "ID" :: filter (λ c, c ≠ "ID") cols in
  if bool_decide ("GPT" ∈ merged) then merged else merged ++ ["GPT"].

(** The row the left join puts at sample id [i]. *)
Definition joined_row (i : string) (found : option row) : row :=
  match found with
  | Some r0 => <["ID" := Str i]> r0
  | None => {[ "ID" := Str i ]}
  end.

(** A missing GPT cell becomes 0. *)
Definition filled_GPT (r : row) : row :=
  match r !! "GPT" with
  | None => <["GPT" := Num 0]> r
  | Some _ => r
  end.

(** The row of sample id [i], given the stored row found for it. *)
Definition reconcile_row (cols : list string) (i : string) (found : option row)
  : row :=
  let r := joined_row i found in
  if bool_decide ("GPT" ∈ cols) then filled_GPT r else <["GPT" := Num 0]> r.

(** The joined rows before [fillna]: GPT is set to 0 everywhere when the
    store had no such column. *)
Definition joined_rows (ids : list string) (f : frame) : list row :=
  (λ i, let r := joined_row i (first_with_ID i (rows f)) in
        if bool_decide ("GPT" ∈ columns f) then r else <["GPT" := Num 0]> r)
  <$> ids.

(** Reconciliation as the design document words it: exactly one row per
    sample id, in the sample order, each taken from the first stored row
    with that id, with a missing GPT set to 0. *)
Definition reconcile (ids : list string) (f : frame) : frame :=
  Frame (reconcile_columns (columns f))
        ((λ i, reconcile_row (columns f) i (first_with_ID i (rows f))) <$> ids).

(** The table [load_annotations] starts from. *)
Definition stored (ids : list string) (csv : option frame) : frame :=
  match csv with
  | Some f => f
  | None => fresh_frame ids
  end.

(** The frame [save_annotations] writes for a table with an ID column. *)
Definition saved (t : frame) : frame :=
  Frame (columns t)
        (Pandas.drop_duplicates_from [] (Pandas.coerce_ID <$> rows t)).

(** A stored table that [load_annotations] can read: it has an ID column
    and no text in GPT. *)
Definition GPT_ok (r : row) : bool :=
  match r !! "GPT" with
  | Some (Str _) => false
  | _ => true
  end.

Definition readable (f : frame) : Prop :=
  "ID" ∈ columns f ∧ forallb GPT_ok (rows f) = true.


(** The cell of column [c] in the row of [id], as the handler reads it
    ([df.loc[df["ID"] == id, c].iloc[0]]); a column that is not in the
    header has no cells. *)
Definition cell_at (t : frame) (id c : string) : cell :=
  if bool_decide (c ∈ columns t)
  then r ← head (filter (Pandas.has_ID id) (rows t)); r !! c
  else None.


(** The steps of a complete label submission, in program order. *)
Definition full_cycle (id user : string) (v : Z) : list event :=
  [Call_load_annotations; Assign_label id user v; Call_save_annotations;
   Call_upload_to_dropbox; Assign_current_id PyNone; St_rerun].

(** A run performs [steps] when they occur in its trace in that order,
    other events possibly in between. *)
Definition performs (steps trace : list event) : Prop :=
  steps `sublist_of` trace.

(** The ID column of a table. *)
Definition ID_column (t : frame) : list cell := (λ r : row, r !! "ID") <$> rows t.

(** Every ID cell of the table is a text. *)
Definition ID_texts (t : frame) : Prop :=
  Forall (λ r : row, ∃ i, r !! "ID" = Some (Str i)) (rows t).

(** A table in the shape [load_annotations] returns for the sample ids
    [ids]: ID heads the header and occurs once in it, GPT is a column,
    the ID column is the sample id list, and every GPT cell is a number. *)
Definition reconciled (ids : list string) (t : frame) : Prop :=
  NoDup ids
  ∧ match columns t with
    | c :: cols => c = "ID" ∧ "ID" ∉ cols
    | [] => False
    end
  ∧ "GPT" ∈ columns t
  ∧ ID_column t = (λ i, Some (Str i)) <$> ids
  ∧ Forall (λ r : row, ∃ z, r !! "GPT" = Some (Num z)) (rows t).

(* ===================================================================== *)
(** ** Sample data                                                        *)
(* ===================================================================== *)

Definition t0 : frame :=
  Frame ["ID"; "GPT"; "alice"]
        [ {[ "ID" := Str "b"; "GPT" := Num 1; "alice" := Num 1 ]};
          {[ "ID" := Str "zz"; "GPT" := Num 1 ]};
          {[ "ID" := Str "b"; "GPT" := Num 0; "alice" := Num 0 ]};
          {[ "ID" := Str "a" ]} ].

Definition w0 : world := World (Some t0) None Missing [].

(** A fresh deployment: no local file, no remote object, no session. *)
Definition w_fresh : world := World None None Missing [].

(** A file in which bob has labelled both samples. *)
Definition t_bob : frame :=
  Frame ["ID"; "GPT"; "bob"]
        [ {[ "ID" := Str "41"; "GPT" := Num 0; "bob" := Num 1 ]};
          {[ "ID" := Str "42"; "GPT" := Num 1; "bob" := Num 0 ]} ].

(** The file [t0] again, with the page showing "b" while the file says
    that alice has labelled it: another session of alice wrote the label
    after this page was rendered. *)
Definition w_labelled : world := World (Some t0) None (Held "b") [].

(** Unfolds the primitives of [prog] so that a run on a concrete shape of
    world computes. *)
Ltac run_prog :=
  unfold try_except, files_upload, files_download, read_csv_file,
    write_csv_file, write_dropbox, set_current_id, get_current_id, reads,
    emit, lift, with_events, mbind, prog_bind, mret, prog_ret;
  cbn.

(* ===================================================================== *)
(** ** List and monad lemmas                                              *)
(* ===================================================================== *)

Lemma bind_singletons {A B} (f : A → list B) (g : A → B) (l : list A) :
  (∀ x, x ∈ l → f x = [g x]) → l ≫= f = g <$> l.
Proof.
  induction l as [|a l IH]; intros Hf; csimpl; [done|].
  rewrite Hf by left. rewrite IH; [done|].
  intros x Hx. apply Hf. by right.
Qed.

Lemma traverse_Return {A B} (f : A → result B) (g : A → B) (l : list A) :
  (∀ x, x ∈ l → f x = Return (g x)) → traverse f l = Return (g <$> l).
Proof.
  induction l as [|a l IH]; intros Hf; simpl; [done|].
  rewrite Hf by left. cbn. rewrite IH; [done|].
  intros x Hx. apply Hf. by right.
Qed.

Lemma filter_ext_elem {A} (P Q : A → Prop) `{!∀ x, Decision (P x)}
    `{!∀ x, Decision (Q x)} (l : list A) :
  (∀ x, x ∈ l → P x ↔ Q x) → filter P l = filter Q l.
Proof.
  induction l as [|a l IH]; intros Hext; [done|].
  rewrite !filter_cons.
  destruct (decide (P a)) as [HP|HP], (decide (Q a)) as [HQ|HQ].
  - f_equal. apply IH. intros; apply Hext; by right.
  - destruct HQ. apply Hext; [left|done].
  - destruct HP. apply Hext; [left|done].
  - apply IH. intros; apply Hext; by right.
Qed.

Lemma prog_bind_Return {A B} (m : prog A) (k : A → prog B) (w w' : world) (a : A) :
  m w = (Return a, w') → (m ≫= k) w = k a w'.
Proof. intros Hm. unfold mbind, prog_bind. by rewrite Hm. Qed.

Lemma prog_bind_Raise {A B} (m : prog A) (k : A → prog B) (w w' : world) (e : exn) :
  m w = (Raise e, w') → (m ≫= k) w = (Raise e, w').
Proof. intros Hm. unfold mbind, prog_bind. by rewrite Hm. Qed.

Lemma with_events_app (w : world) (evs1 evs2 : list event) :
  with_events (with_events w evs1) evs2 = with_events w (evs1 ++ evs2).
Proof. unfold with_events. cbn. by rewrite app_assoc. Qed.

(* ===================================================================== *)
(** ** Reconciliation lemmas                                              *)
(* ===================================================================== *)

Section Reconcile.
Import Pandas.

Lemma coerce_ID_has_ID (r : row) (i : string) :
  has_ID i (coerce_ID r) ↔ ID_of r = i.
Proof.
  unfold has_ID, coerce_ID, ID_of. rewrite lookup_insert_eq.
  split; [intros [= Hi]; exact Hi | by intros ->].
Qed.

Lemma ID_of_coerce_ID (r : row) : ID_of (coerce_ID r) = ID_of r.
Proof. unfold ID_of, coerce_ID. by rewrite lookup_insert_eq. Qed.

Lemma has_ID_ID_of (r : row) (i : string) : has_ID i r → ID_of r = i.
Proof. unfold has_ID, ID_of. by intros ->. Qed.

(** Keeping the first row of every ID leaves, for a given ID, the first
    row that has it. *)
Lemma drop_duplicates_filter (i : string) (rs : list row) (seen : list cell) :
  filter (has_ID i) (drop_duplicates_from seen rs) =
  if decide (Some (Str i) ∈ seen) then []
  else option_list (head (filter (has_ID i) rs)).
Proof.
  revert seen. induction rs as [|r rs IH]; intros seen; simpl.
  { by destruct (decide _). }
  rewrite filter_cons.
  case_bool_decide as Hseen.
  - rewrite IH. destruct (decide (Some (Str i) ∈ seen)) as [|Hi]; [done|].
    destruct (decide (has_ID i r)) as [Hr|]; [|done].
    unfold has_ID in Hr. congruence.
  - rewrite filter_cons, IH.
    destruct (decide (has_ID i r)) as [Hr|Hr].
    + unfold has_ID in Hr. rewrite Hr in *.
      rewrite decide_True by left. by rewrite decide_False.
    + destruct (decide (Some (Str i) ∈ seen)) as [Hi|Hi].
      * rewrite decide_True; [done | by right].
      * rewrite decide_False; [done|].
        rewrite elem_of_cons. unfold has_ID in Hr.
        intros [?|?]; [congruence | done].
Qed.

Lemma filter_isin_has_ID (ids : list string) (i : string) (rs : list row) :
  i ∈ ids →
  filter (has_ID i) (filter (isin ids) rs) = filter (has_ID i) rs.
Proof.
  intros Hi. rewrite list_filter_filter. apply list_filter_iff.
  intros r. split; [tauto|]. intros Hr. split; [done|].
  exists i. done.
Qed.

Lemma filter_has_ID_coerce (i : string) (rs : list row) :
  filter (has_ID i) (coerce_ID <$> rs) =
  coerce_ID <$> filter (λ r, ID_of r = i) rs.
Proof.
  induction rs as [|r rs IH]; [done|].
  rewrite fmap_cons, !filter_cons, IH.
  destruct (decide (has_ID i (coerce_ID r))) as [H|H];
    rewrite coerce_ID_has_ID in H.
  - by rewrite decide_True.
  - by rewrite decide_False.
Qed.

Lemma first_with_ID_Some (i : string) (rs : list row) (r : row) :
  first_with_ID i rs = Some r → r ∈ rs ∧ ID_of r = i.
Proof.
  unfold first_with_ID. intros Hr%head_Some_elem_of.
  apply list_elem_of_filter in Hr. tauto.
Qed.

Lemma first_with_ID_None (i : string) (rs : list row) (r : row) :
  first_with_ID i rs = None → r ∈ rs → ID_of r ≠ i.
Proof.
  unfold first_with_ID. rewrite head_None. intros Hnil Hr Hi.
  exact (filter_nil_not_elem_of _ _ r Hnil Hi Hr).
Qed.

Lemma merge_row_joined (ids : list string) (rs : list row) (i : string) :
  i ∈ ids →
  merge_row (filter (isin ids) (drop_duplicates_from [] (coerce_ID <$> rs))) i
  = [joined_row i (first_with_ID i rs)].
Proof.
  intros Hi. unfold merge_row.
  rewrite filter_isin_has_ID, drop_duplicates_filter by done.
  rewrite decide_False by apply not_elem_of_nil.
  rewrite filter_has_ID_coerce.
  destruct (first_with_ID i rs) as [r0|] eqn:Hfirst.
  - destruct (first_with_ID_Some _ _ _ Hfirst) as [_ Hid].
    unfold first_with_ID in Hfirst.
    destruct (filter _ rs) as [|r1 rest]; simplify_eq/=.
    reflexivity.
  - unfold first_with_ID in Hfirst. apply head_None in Hfirst.
    by rewrite Hfirst.
Qed.

Lemma astype_str_ID_Return (f : frame) :
  "ID" ∈ columns f →
  astype_str_ID f = Return (Frame (columns f) (coerce_ID <$> rows f)).
Proof.
  intros Hcol. unfold astype_str_ID, require_column.
  by rewrite bool_decide_eq_true_2.
Qed.

Lemma astype_str_ID_Raise (f : frame) :
  "ID" ∉ columns f → astype_str_ID f = Raise (KeyError "ID").
Proof.
  intros Hcol. unfold astype_str_ID, require_column.
  by rewrite bool_decide_eq_false_2.
Qed.

Lemma GPT_in_merged (cols : list string) :
  "GPT" ∈ "ID" :: filter (λ c, c ≠ "ID") cols ↔ "GPT" ∈ cols.
Proof.
  rewrite elem_of_cons, list_elem_of_filter. split.
  - intros [?|[_ ?]]; [discriminate | done].
  - intros ?. right. split; [discriminate | done].
Qed.

Lemma joined_row_GPT (i : string) (found : option row) :
  joined_row i found !! "GPT" = found ≫= (λ r : row, r !! "GPT").
Proof.
  destruct found as [r0|]; simpl.
  - by rewrite lookup_insert_ne.
  - by rewrite lookup_singleton_ne.
Qed.

Lemma GPT_ok_first (i : string) (rs : list row) (r0 : row) (s : string) :
  forallb GPT_ok rs = true →
  first_with_ID i rs = Some r0 → r0 !! "GPT" ≠ Some (Str s).
Proof.
  intros Hok Hfirst Hs.
  destruct (first_with_ID_Some _ _ _ Hfirst) as [Hin _].
  rewrite forallb_forall in Hok.
  apply list_elem_of_In, Hok in Hin. unfold GPT_ok in Hin.
  by rewrite Hs in Hin.
Qed.

(** [load_annotations] up to the [fillna(0).astype(int)] of GPT. *)
Lemma load_annotations_joined (ids : list string) (f : frame) :
  "ID" ∈ columns f →
  load_annotations ids (Some f) =
  rs ← traverse fill_GPT (joined_rows ids f);
  Return (Frame (reconcile_columns (columns f)) rs).
Proof.
  intros Hcol. unfold load_annotations.
  rewrite astype_str_ID_Return by done. cbn [mbind result_bind].
  unfold merge_left, filter_isin, drop_duplicates. cbn [rows columns].
  rewrite (bind_singletons _ (λ i, joined_row i (first_with_ID i (rows f))))
    by (intros; by apply merge_row_joined).
  unfold joined_rows, reconcile_columns.
  destruct (decide ("GPT" ∈ columns f)) as [Hgpt|Hgpt].
  - by rewrite !bool_decide_eq_true_2 by (done || by apply GPT_in_merged).
  - rewrite !bool_decide_eq_false_2 by (done || by rewrite GPT_in_merged).
    unfold assign_column, set_header. cbn [rows columns].
    rewrite bool_decide_eq_false_2 by (by rewrite GPT_in_merged).
    by rewrite <- list_fmap_compose.
Qed.

Lemma reconcile_rows_joined (ids : list string) (f : frame) :
  rows (reconcile ids f) = filled_GPT <$> joined_rows ids f.
Proof.
  unfold reconcile, joined_rows, reconcile_row. cbn [rows].
  rewrite <- list_fmap_compose. apply list_fmap_ext. intros n i _. cbn.
  case_bool_decide; [done|].
  unfold filled_GPT. by rewrite lookup_insert_eq.
Qed.

Lemma fill_GPT_inv (r r' : row) :
  fill_GPT r = Return r' → r' = filled_GPT r.
Proof.
  unfold fill_GPT, filled_GPT.
  destruct (r !! "GPT") as [[z|s]|]; by intros [= <-].
Qed.

Lemma traverse_fill_GPT_inv (l rs : list row) :
  traverse fill_GPT l = Return rs → rs = filled_GPT <$> l.
Proof.
  revert rs. induction l as [|r l IH]; intros rs; simpl.
  { by intros [= <-]. }
  destruct (fill_GPT r) as [r'|e] eqn:Hr; [|done]. cbn.
  destruct (traverse fill_GPT l) as [rs'|e] eqn:Hl; [|done]. cbn.
  intros [= <-]. cbn. f_equal; [by apply fill_GPT_inv|].
  by apply IH.
Qed.

(** Whenever [load_annotations] returns, it returns the reconciliation
    of the stored table. *)
Lemma load_annotations_inv (ids : list string) (csv : option frame)
    (t : frame) :
  load_annotations ids csv = Return t →
  "ID" ∈ columns (stored ids csv) ∧ t = reconcile ids (stored ids csv).
Proof.
  change (load_annotations ids csv)
    with (load_annotations ids (Some (stored ids csv))).
  generalize (stored ids csv). intros f Hload.
  destruct (decide ("ID" ∈ columns f)) as [Hcol|Hcol].
  - split; [done|]. rewrite load_annotations_joined in Hload by done.
    destruct (traverse fill_GPT (joined_rows ids f)) as [rs|e] eqn:Hrs; [|done].
    cbn in Hload. injection Hload as <-.
    apply traverse_fill_GPT_inv in Hrs as ->.
    unfold reconcile at 1. by rewrite <- reconcile_rows_joined.
  - unfold load_annotations in Hload.
    by rewrite astype_str_ID_Raise in Hload.
Qed.

(** [load_annotations] on a readable file is reconciliation. *)
Lemma load_annotations_Some (ids : list string) (f : frame) :
  readable f → load_annotations ids (Some f) = Return (reconcile ids f).
Proof.
  intros [Hcol Hok]. rewrite load_annotations_joined by done.
  rewrite (traverse_Return _ filled_GPT).
  { cbn. unfold reconcile at 1. by rewrite <- reconcile_rows_joined. }
  intros r (i & -> & _)%list_elem_of_fmap. cbn beta zeta.
  unfold fill_GPT, filled_GPT. case_bool_decide.
  - rewrite joined_row_GPT.
    destruct (first_with_ID i (rows f)) as [r0|] eqn:Hfirst; [|done].
    cbn. destruct (r0 !! "GPT") as [[z|s]|] eqn:Hg; [done| |done].
    by eapply GPT_ok_first in Hg.
  - by rewrite lookup_insert_eq.
Qed.


(** *** The rows of a reconciled table, cell by cell *)

Lemma reconcile_row_ID (cols : list string) (i : string) (found : option row) :
  reconcile_row cols i found !! "ID" = Some (Str i).
Proof.
  assert (joined_row i found !! "ID" = Some (Str i)) as Hj.
  { destruct found; simpl; [apply lookup_insert_eq | apply lookup_singleton_eq]. }
  unfold reconcile_row, filled_GPT. case_bool_decide.
  - destruct (joined_row i found !! "GPT"); [done|].
    by rewrite lookup_insert_ne.
  - by rewrite lookup_insert_ne.
Qed.

Lemma reconcile_row_GPT (cols : list string) (i : string) (found : option row) :
  reconcile_row cols i found !! "GPT" =
  match (if bool_decide ("GPT" ∈ cols)
         then found ≫= (λ r : row, r !! "GPT") else None) with
  | Some v => Some v
  | None => Some (Num 0)
  end.
Proof.
  unfold reconcile_row, filled_GPT. case_bool_decide.
  - rewrite <- (joined_row_GPT i).
    destruct (joined_row i found !! "GPT") eqn:Hg; [done|].
    apply lookup_insert_eq.
  - apply lookup_insert_eq.
Qed.

Lemma reconcile_row_other (cols : list string) (i c : string)
    (found : option row) :
  c ≠ "ID" → c ≠ "GPT" →
  reconcile_row cols i found !! c = found ≫= (λ r : row, r !! c).
Proof.
  intros Hid Hgpt.
  assert (joined_row i found !! c = found ≫= (λ r : row, r !! c)) as Hj.
  { destruct found; simpl;
      [by rewrite lookup_insert_ne | by rewrite lookup_singleton_ne]. }
  unfold reconcile_row, filled_GPT. case_bool_decide.
  - destruct (joined_row i found !! "GPT"); [done|].
    by rewrite lookup_insert_ne.
  - by rewrite lookup_insert_ne.
Qed.


Lemma reconcile_ID_column (ids : list string) (f : frame) :
  ID_column (reconcile ids f) = (λ i, Some (Str i)) <$> ids.
Proof.
  unfold ID_column, reconcile. cbn [rows].
  rewrite <- list_fmap_compose. apply list_fmap_ext.
  intros n i _. apply reconcile_row_ID.
Qed.

Lemma NoDup_Str (ids : list string) :
  NoDup ids → NoDup ((λ i, Some (Str i)) <$> ids).
Proof.
  apply NoDup_fmap_2_strong. intros i j _ _ [= Hij]. exact Hij.
Qed.

(** *** First run: no file *)

Lemma first_with_ID_fmap (g : string → row) (ids : list string) (i : string) :
  (∀ j, ID_of (g j) = j) → i ∈ ids →
  first_with_ID i (g <$> ids) = Some (g i).
Proof.
  intros Hg. unfold first_with_ID.
  induction ids as [|j ids IH]; intros Hi; [by apply elem_of_nil in Hi|].
  rewrite fmap_cons, filter_cons.
  destruct (decide (ID_of (g j) = i)) as [Hj|Hj].
  - rewrite Hg in Hj. by subst.
  - apply IH. apply elem_of_cons in Hi as [->|Hi]; [|done].
    by rewrite Hg in Hj.
Qed.

Lemma fresh_frame_readable (ids : list string) : readable (fresh_frame ids).
Proof.
  split; [by left|]. cbn [fresh_frame rows].
  induction ids as [|i ids IH]; [done|]. by rewrite fmap_cons.
Qed.

Lemma reconcile_fresh_frame (ids : list string) :
  reconcile ids (fresh_frame ids) = fresh_frame ids.
Proof.
  unfold reconcile, fresh_frame. cbn [rows columns]. f_equal.
  apply list_fmap_ext. intros n i Hi%list_elem_of_lookup_2.
  rewrite (first_with_ID_fmap (λ i, {[ "ID" := Str i; "GPT" := Num 0 ]}))
    by done.
  apply map_eq. intros c.
  destruct (decide (c = "ID")) as [->|Hid];
    [by rewrite reconcile_row_ID, lookup_insert_eq|].
  destruct (decide (c = "GPT")) as [->|Hgpt].
  - rewrite reconcile_row_GPT. cbn.
    by rewrite lookup_insert_ne, lookup_singleton_eq.
  - by rewrite reconcile_row_other.
Qed.

Lemma load_annotations_None (ids : list string) :
  load_annotations ids None = Return (fresh_frame ids).
Proof.
  change (load_annotations ids None)
    with (load_annotations ids (Some (fresh_frame ids))).
  rewrite load_annotations_Some by apply fresh_frame_readable.
  by rewrite reconcile_fresh_frame.
Qed.

(** *** Saving *)

Lemma drop_duplicates_from_elem (seen : list cell) (rs : list row) (r : row) :
  r ∈ drop_duplicates_from seen rs → r ∈ rs.
Proof.
  revert seen. induction rs as [|r0 rs IH]; intros seen; simpl; [done|].
  case_bool_decide.
  - intros Hr%IH. by right.
  - intros [->|Hr%IH]%elem_of_cons; [left | by right].
Qed.

Lemma save_annotations_Return (t : frame) :
  "ID" ∈ columns t →
  save_annotations t = Return (saved t).
Proof.
  intros Hcol. unfold save_annotations.
  by rewrite astype_str_ID_Return.
Qed.

Lemma GPT_ok_coerce_ID (r : row) : GPT_ok (coerce_ID r) = GPT_ok r.
Proof. unfold GPT_ok, coerce_ID. by rewrite lookup_insert_ne. Qed.

Lemma saved_readable (t : frame) :
  readable t → readable (saved t).
Proof.
  intros [Hcol Hok]. split; [done|]. cbn [saved rows].
  rewrite forallb_forall in *. intros r Hr%list_elem_of_In.
  apply drop_duplicates_from_elem, list_elem_of_fmap in Hr as (r0 & -> & Hr0).
  rewrite GPT_ok_coerce_ID. by apply Hok, list_elem_of_In.
Qed.

Lemma first_with_ID_saved (i : string) (rs : list row) :
  first_with_ID i (drop_duplicates_from [] (coerce_ID <$> rs))
  = coerce_ID <$> first_with_ID i rs.
Proof.
  unfold first_with_ID.
  rewrite (filter_ext_elem _ (has_ID i)).
  - rewrite drop_duplicates_filter, decide_False by apply not_elem_of_nil.
    rewrite filter_has_ID_coerce.
    by destruct (filter _ rs).
  - intros r Hr.
    apply drop_duplicates_from_elem, list_elem_of_fmap in Hr as (r0 & -> & _).
    by rewrite ID_of_coerce_ID, coerce_ID_has_ID.
Qed.

Lemma reconcile_row_coerce (cols : list string) (i : string)
    (found : option row) :
  reconcile_row cols i (coerce_ID <$> found) = reconcile_row cols i found.
Proof.
  unfold reconcile_row. destruct found as [r0|]; [|done]. simpl.
  unfold coerce_ID. by rewrite insert_insert_eq.
Qed.

Lemma reconcile_saved (ids : list string) (t : frame) :
  reconcile ids (saved t) = reconcile ids t.
Proof.
  unfold reconcile. cbn [saved rows columns]. f_equal.
  apply list_fmap_ext. intros n i _.
  by rewrite first_with_ID_saved, reconcile_row_coerce.
Qed.

(** What is read back after a save is the reconciliation of what was
    saved. *)
Lemma load_saved (ids : list string) (t : frame) :
  readable t →
  load_annotations ids (Some (saved t)) = Return (reconcile ids t).
Proof.
  intros Ht. rewrite load_annotations_Some by by apply saved_readable.
  by rewrite reconcile_saved.
Qed.


(** *** Reconciled tables are fixed points *)

Lemma filter_not_ID (cols : list string) :
  "ID" ∉ cols → filter (λ c, c ≠ "ID") cols = cols.
Proof.
  induction cols as [|c cols IH]; [done|].
  rewrite not_elem_of_cons. intros [Hc Hcols].
  rewrite filter_cons, decide_True by done. f_equal. by apply IH.
Qed.

Lemma first_with_ID_NoDup (rs : list row) (n : nat) (r : row) :
  NoDup (ID_of <$> rs) → rs !! n = Some r →
  first_with_ID (ID_of r) rs = Some r.
Proof.
  unfold first_with_ID. revert n.
  induction rs as [|r0 rs IH]; intros n Hnd Hn; [done|].
  rewrite fmap_cons in Hnd. apply NoDup_cons in Hnd as [Hr0 Hnd].
  rewrite filter_cons. destruct n as [|n]; simpl in Hn.
  - simplify_eq. by rewrite decide_True.
  - rewrite decide_False; [by eapply IH|].
    intros Heq. apply Hr0. rewrite Heq.
    apply list_elem_of_fmap_2. by eapply list_elem_of_lookup_2.
Qed.

Lemma reconciled_ids (ids : list string) (t : frame) :
  ID_column t = (λ i, Some (Str i)) <$> ids → ID_of <$> rows t = ids.
Proof.
  unfold ID_column. intros Hcol.
  assert (Pandas.astype_str <$> ((λ r : row, r !! "ID") <$> rows t)
          = Pandas.astype_str <$> ((λ i, Some (Str i)) <$> ids)) as Heq
    by by rewrite Hcol.
  rewrite <- !list_fmap_compose in Heq.
  rewrite <- (list_fmap_id ids). exact Heq.
Qed.

Lemma reconcile_reconciled (ids : list string) (t : frame) :
  reconciled ids t → reconcile ids t = t.
Proof.
  intros (Hnd & Hhead & Hgpt & Hids & Hnum).
  destruct t as [cols rs]. cbn [columns rows] in *.
  unfold reconcile. cbn [columns rows]. f_equal.
  - unfold reconcile_columns. destruct cols as [|c cols]; [done|].
    destruct Hhead as [-> Hrest]. rewrite filter_cons, decide_False by tauto.
    rewrite filter_not_ID by done.
    rewrite bool_decide_eq_true_2; done.
  - pose proof (reconciled_ids ids (Frame cols rs) Hids) as Hrows.
    cbn [rows] in Hrows. rewrite <- Hrows in *.
    rewrite <- list_fmap_compose.
    etrans; [|apply list_fmap_id]. apply list_fmap_ext.
    intros n r Hn. cbn.
    rewrite (first_with_ID_NoDup _ n) by done.
    apply map_eq. intros c.
    assert (r !! "ID" = Some (Str (ID_of r))) as HrID.
    { unfold ID_column in Hids. cbn [rows] in Hids.
      apply (f_equal (λ l, l !! n)) in Hids.
      rewrite !list_lookup_fmap, Hn in Hids. cbn in Hids.
      by injection Hids. }
    destruct (decide (c = "ID")) as [->|Hid];
      [by rewrite reconcile_row_ID|].
    destruct (decide (c = "GPT")) as [->|Hg].
    + rewrite reconcile_row_GPT, bool_decide_eq_true_2 by done. cbn.
      rewrite Forall_forall in Hnum.
      destruct (Hnum r) as [z Hz]; [by eapply list_elem_of_lookup_2|].
      by rewrite Hz.
    + by rewrite reconcile_row_other.
Qed.

Lemma reconcile_GPT_numeric (ids : list string) (f : frame) :
  forallb GPT_ok (rows f) = true →
  Forall (λ r : row, ∃ z, r !! "GPT" = Some (Num z)) (rows (reconcile ids f)).
Proof.
  intros Hok. unfold reconcile. cbn [rows].
  apply Forall_fmap, Forall_forall. intros i _. cbn.
  rewrite reconcile_row_GPT. case_bool_decide; [|by exists 0%Z].
  destruct (first_with_ID i (rows f)) as [r0|] eqn:Hfirst; [|by exists 0%Z].
  cbn. destruct (r0 !! "GPT") as [[z|s]|] eqn:Hg;
    [by exists z | | by exists 0%Z].
  by eapply GPT_ok_first in Hg.
Qed.

Lemma reconcile_lookup (ids : list string) (f : frame) (n : nat) (i : string) :
  ids !! n = Some i →
  rows (reconcile ids f) !! n
  = Some (reconcile_row (columns f) i (first_with_ID i (rows f))).
Proof.
  intros Hn. unfold reconcile. cbn [rows].
  by rewrite list_lookup_fmap, Hn.
Qed.

Lemma reconcile_columns_incl (cols : list string) (c : string) :
  c ∈ cols → c ∈ reconcile_columns cols.
Proof.
  intros Hc. unfold reconcile_columns.
  assert (c ∈ "ID" :: filter (λ c, c ≠ "ID") cols) as Hm.
  { destruct (decide (c = "ID")) as [->|Hid]; [left|right].
    by apply list_elem_of_filter. }
  case_bool_decide; [done|]. apply elem_of_app. by left.
Qed.



Lemma load_annotations_GPT_numeric (ids : list string) (csv : option frame)
    (t : frame) :
  load_annotations ids csv = Return t →
  Forall (λ r : row, ∃ z, r !! "GPT" = Some (Num z)) (rows t).
Proof.
  intros Hload. pose proof (load_annotations_inv _ _ _ Hload) as [Hcol _].
  change (load_annotations ids csv)
    with (load_annotations ids (Some (stored ids csv))) in Hload.
  rewrite load_annotations_joined in Hload by done.
  destruct (traverse fill_GPT (joined_rows ids (stored ids csv)))
    as [rs|e] eqn:Hrs; [|done].
  cbn in Hload. injection Hload as <-. cbn [rows].
  clear Hcol. revert rs Hrs.
  induction (joined_rows ids (stored ids csv)) as [|r l IH]; intros rs; simpl.
  { intros [= <-]. constructor. }
  destruct (fill_GPT r) as [r'|e] eqn:Hr; [|done]. cbn.
  destruct (traverse fill_GPT l) as [rs'|e] eqn:Hl; [|done]. cbn.
  intros [= <-]. constructor; [|by apply IH].
  unfold fill_GPT in Hr. destruct (r !! "GPT") as [[z|s']|] eqn:Hg.
  - injection Hr as <-. by exists z.
  - done.
  - injection Hr as <-. exists 0%Z. apply lookup_insert_eq.
Qed.

Lemma numeric_GPT_ok (rs : list row) :
  Forall (λ r : row, ∃ z, r !! "GPT" = Some (Num z)) rs →
  forallb GPT_ok rs = true.
Proof.
  intros Hnum. apply forallb_forall. intros r Hr%list_elem_of_In.
  rewrite Forall_forall in Hnum. destruct (Hnum r Hr) as [z Hz].
  unfold GPT_ok. by rewrite Hz.
Qed.

End Reconcile.



(* ===================================================================== *)
(** ** Running the table manager in the world                             *)
(* ===================================================================== *)

Lemma load_run (ids : list string) (w : world) :
  load ids w =
  (load_annotations ids (csv w), with_events w [Call_load_annotations]).
Proof. reflexivity. Qed.

Lemma save_run (t : frame) (w : world) :
  "ID" ∈ columns t →
  save t w =
  (Return tt,
   World (Some (saved t)) (dropbox w) (current_id w)
         (events w ++ [Call_save_annotations])).
Proof.
  intros Hcol. unfold save, mbind, prog_bind, emit, lift.
  by rewrite save_annotations_Return.
Qed.

(* ===================================================================== *)
(** ** Properties of the table manager                                    *)
(* ===================================================================== *)



(** C5.  With no annotation file, [load_annotations] does not raise: for a
    sample list of N ids it returns N rows, each holding only its ID and
    GPT = 0, under the header ID, GPT (no user column).  The same holds
    for [load] in any world whose file is absent. *)
Theorem load_first_run (ids : list string) :
  ∃ t, load_annotations ids None = Return t
    ∧ (∀ remote cur evs, (load ids (World None remote cur evs)).1 = Return t)
    ∧ length (rows t) = length ids
    ∧ columns t = ["ID"; "GPT"]
    ∧ rows t = (λ i, {[ "ID" := Str i; "GPT" := Num 0 ]}) <$> ids
    ∧ Forall (λ r : row, r !! "GPT" = Some (Num 0)
                         ∧ ∀ c, c ≠ "ID" → c ≠ "GPT" → r !! c = None) (rows t).
Proof.
  exists (fresh_frame ids).
  split; [apply load_annotations_None|].
  split; [intros; rewrite load_run; apply load_annotations_None|].
  split; [unfold fresh_frame; cbn [rows]; by rewrite length_fmap|].
  split; [done|]. split; [done|].
  unfold fresh_frame. cbn [rows]. apply Forall_fmap, Forall_forall.
  intros i _. cbn. split.
  - by rewrite lookup_insert_ne, lookup_singleton_eq.
  - intros c Hid Hg. by rewrite lookup_insert_ne, lookup_singleton_ne.
Qed.



(* ===================================================================== *)
(** ** Remote sync                                                        *)
(* ===================================================================== *)

(** [upload_to_dropbox] always returns; only a successful call changes
    the remote object. *)
Lemma upload_to_dropbox_run (net : option exn) (w : world) :
  upload_to_dropbox net w =
  (Return tt,
   match csv w, net with
   | None, _ =>
       with_events w
         [Call_upload_to_dropbox;
          St_warning ("Could not upload CSV to Dropbox: "
                      +:+ exn_message FileNotFoundError)]
   | Some f, Some e =>
       with_events w
         [Call_upload_to_dropbox; Call_files_upload;
          St_warning ("Could not upload CSV to Dropbox: " +:+ exn_message e)]
   | Some f, None =>
       World (csv w) (Some f) (current_id w)
             (events w ++ [Call_upload_to_dropbox; Call_files_upload])
   end).
Proof.
  unfold upload_to_dropbox.
  destruct w as [[f|] remote cur evs], net as [e|];
    run_prog; by rewrite <- ?app_assoc.
Qed.

(** [download_from_dropbox] always returns; the local file is written
    only with the content of a download that succeeded. *)
Lemma download_from_dropbox_run (net : option exn) (w : world) :
  download_from_dropbox net w =
  match net, dropbox w with
  | None, Some f =>
      (Return true,
       World (Some f) (dropbox w) (current_id w)
             (events w ++ [Call_files_download]))
  | None, None | Some ApiError, _ =>
      (Return false, with_events w [Call_files_download])
  | Some e, _ =>
      (Return false,
       with_events w
         [Call_files_download;
          St_warning ("Could not download CSV from Dropbox: "
                      +:+ exn_message e)])
  end.
Proof.
  unfold download_from_dropbox.
  destruct w as [local [f|] cur evs], net as [[]|];
    run_prog; by rewrite <- ?app_assoc.
Qed.

Lemma startup_run (net : option exn) (w : world) :
  startup net w =
  let '(ok, w') := download_from_dropbox net w in
  (Return tt,
   with_events w'
     [match ok with
      | Return true => St_info "Loaded latest CSV from Dropbox."
      | _ => St_warning "No Dropbox CSV found — using local file."
      end]).
Proof.
  rewrite (download_from_dropbox_run net w). unfold startup.
  destruct net as [[]|], (dropbox w) as [f|] eqn:Hremote;
    (erewrite prog_bind_Return;
     [|rewrite download_from_dropbox_run, ?Hremote; reflexivity]); done.
Qed.



(* ===================================================================== *)
(** ** Writing a label into the table                                     *)
(* ===================================================================== *)

Section SetLabel.
Import Pandas.

Lemma ensure_column_columns (u : string) (t : frame) :
  u ∈ columns (ensure_column u t).
Proof.
  unfold ensure_column. case_bool_decide; [done|].
  unfold assign_column, set_header. cbn [columns].
  rewrite bool_decide_eq_false_2 by done. apply elem_of_app. right. by left.
Qed.

Lemma ensure_column_incl (u c : string) (t : frame) :
  c ∈ columns t → c ∈ columns (ensure_column u t).
Proof.
  intros Hc. unfold ensure_column. case_bool_decide; [done|].
  unfold assign_column, set_header. cbn [columns].
  rewrite bool_decide_eq_false_2 by done. apply elem_of_app. by left.
Qed.

Lemma ensure_column_id (u : string) (t : frame) :
  u ∈ columns t → ensure_column u t = t.
Proof. intros Hu. unfold ensure_column. by rewrite bool_decide_eq_true_2. Qed.

(** Adding the user's column does not touch the ID cells of a table that
    has an ID column. *)
Lemma ensure_column_filter (u id : string) (t : frame) :
  "ID" ∈ columns t →
  filter (has_ID id) (rows (ensure_column u t))
  = (if bool_decide (u ∈ columns t) then λ r, r else delete u)
    <$> filter (has_ID id) (rows t).
Proof.
  intros HID. unfold ensure_column. case_bool_decide as Hu.
  { by rewrite list_fmap_id. }
  assert (u ≠ "ID") as Hne by (by intros ->).
  cbn [assign_column rows].
  induction (rows t) as [|r rs IH]; [done|].
  rewrite fmap_cons, !filter_cons, IH.
  destruct (decide (has_ID id r)) as [Hr|Hr];
    [rewrite decide_True | rewrite decide_False]; try done;
    unfold has_ID in *; by rewrite lookup_delete_ne.
Qed.

Lemma cell_at_ensure_column (u id : string) (t : frame) :
  "ID" ∈ columns t → cell_at (ensure_column u t) id u = cell_at t id u.
Proof.
  intros HID. destruct (decide (u ∈ columns t)) as [Hu|Hu].
  { by rewrite ensure_column_id. }
  unfold cell_at.
  rewrite bool_decide_eq_true_2 by apply ensure_column_columns.
  rewrite (bool_decide_eq_false_2 (u ∈ columns t)) by done.
  rewrite ensure_column_filter by done.
  rewrite bool_decide_eq_false_2 by done.
  destruct (filter (has_ID id) (rows t)) as [|r rs]; [done|]. cbn.
  apply lookup_delete_eq.
Qed.

Lemma filter_has_ID_nil (id : string) (t : frame) :
  filter (has_ID id) (rows t) = [] ↔ Some (Str id) ∉ ID_column t.
Proof.
  unfold ID_column. induction (rows t) as [|r rs IH].
  { split; [intros _; apply not_elem_of_nil | done]. }
  rewrite filter_cons, fmap_cons, not_elem_of_cons. unfold has_ID at 1.
  destruct (decide (r !! "ID" = Some (Str id))) as [Hr|Hr].
  - split; [done|]. intros [Hne _]. by destruct Hne.
  - rewrite IH. split; [|tauto]. intros Hrs. split; [congruence | done].
Qed.

(** [set_label] by cases on the row and on the user's cell. *)
Lemma set_label_run (t : frame) (id u : string) (v : Z) :
  "ID" ∈ columns t →
  set_label t id u v =
  Return (match filter (has_ID id) (rows t) with
          | [] => None
          | _ :: _ =>
              match cell_at t id u with
              | None => Some (set_cells id u v (ensure_column u t), true)
              | Some _ => Some (ensure_column u t, false)
              end
          end).
Proof.
  intros HID. unfold set_label, require_column.
  rewrite bool_decide_eq_true_2 by by apply ensure_column_incl.
  cbn [mbind result_bind].
  rewrite <- (cell_at_ensure_column u id t) by done.
  unfold cell_at. rewrite bool_decide_eq_true_2 by apply ensure_column_columns.
  rewrite ensure_column_filter by done.
  destruct (filter (has_ID id) (rows t)) as [|r rs]; [done|]. cbn.
  by destruct (_ !! u).
Qed.

Lemma set_cells_filter (id u : string) (v : Z) (t : frame) :
  u ≠ "ID" →
  filter (has_ID id) (rows (set_cells id u v t))
  = <[u := Num v]> <$> filter (has_ID id) (rows t).
Proof.
  intros Hne. cbn [set_cells rows].
  induction (rows t) as [|r rs IH]; [done|].
  rewrite fmap_cons, !filter_cons, IH.
  destruct (decide (has_ID id r)) as [Hr|Hr].
  - rewrite decide_True; [done|]. unfold has_ID. by rewrite lookup_insert_ne.
  - by rewrite decide_False.
Qed.

Lemma set_cells_ID_column (id u : string) (v : Z) (t : frame) :
  u ≠ "ID" → ID_column (set_cells id u v t) = ID_column t.
Proof.
  intros Hne. unfold ID_column. cbn [set_cells rows].
  rewrite <- list_fmap_compose. apply list_fmap_ext. intros n r _. cbn.
  destruct (decide _); [by rewrite lookup_insert_ne | done].
Qed.

Lemma ensure_column_ID_column (u : string) (t : frame) :
  "ID" ∈ columns t → ID_column (ensure_column u t) = ID_column t.
Proof.
  intros HID. unfold ensure_column. case_bool_decide as Hu; [done|].
  assert (u ≠ "ID") as Hne by (by intros ->).
  unfold ID_column. cbn [assign_column rows].
  rewrite <- list_fmap_compose. apply list_fmap_ext. intros n r _. cbn.
  by rewrite lookup_delete_ne.
Qed.

(** An unset cell is never the ID cell of a row that was found by its ID. *)
Lemma cell_at_None_not_ID (t : frame) (id u : string) :
  "ID" ∈ columns t → filter (has_ID id) (rows t) ≠ [] →
  cell_at t id u = None → u ≠ "ID".
Proof.
  intros HID Hfound Hcell ->. unfold cell_at in Hcell.
  rewrite bool_decide_eq_true_2 in Hcell by done.
  destruct (filter (has_ID id) (rows t)) as [|r rs] eqn:Hf; [done|].
  assert (r ∈ filter (has_ID id) (rows t)) as Hr by (rewrite Hf; left).
  apply list_elem_of_filter in Hr as [Hr _]. unfold has_ID in Hr.
  cbn in Hcell. congruence.
Qed.

End SetLabel.

(** C2.  [set_label] keeps the first answer.  For a table with an ID
    column, an id that occurs in it and any username: the call succeeds;
    it reports a change exactly when the user's cell for that id was
    unset, and then the cell holds the given value; when the cell was
    already set it keeps its value.  On the resulting table a further
    call with any value is a no-op that returns the table unchanged, so
    only the first value survives.  Yes is written as 1 and No as 0. *)
Theorem set_label_first_write_wins (t : frame) (id username : string) (v : Z) :
  "ID" ∈ columns t → Some (Str id) ∈ ID_column t →
  ∃ t1 changed,
    set_label t id username v = Return (Some (t1, changed))
    ∧ changed = bool_decide (cell_at t id username = None)
    ∧ cell_at t1 id username = Some (default (Num v) (cell_at t id username))
    ∧ (∀ v', set_label t1 id username v' = Return (Some (t1, false)))
    ∧ label_of Yes = 1%Z ∧ label_of No = 0%Z.
Proof.
  intros HID Hid.
  assert (filter (Pandas.has_ID id) (rows t) ≠ []) as Hfound.
  { intros Hnil%filter_has_ID_nil. done. }
  rewrite set_label_run by done.
  destruct (filter (Pandas.has_ID id) (rows t)) as [|r rs] eqn:Hf; [done|].
  assert ("ID" ∈ columns (ensure_column username t)) as HID'
    by by apply ensure_column_incl.
  assert (filter (Pandas.has_ID id) (rows (ensure_column username t)) ≠ [])
    as Hfound'.
  { rewrite ensure_column_filter, Hf by done. done. }
  destruct (cell_at t id username) as [x|] eqn:Hcell.
  - exists (ensure_column username t), false.
    split; [done|]. split; [done|].
    split; [by rewrite cell_at_ensure_column|].
    split; [|done]. intros v'. rewrite set_label_run by done.
    destruct (filter _ (rows (ensure_column username t))); [done|].
    rewrite cell_at_ensure_column, Hcell by done.
    by rewrite ensure_column_id by apply ensure_column_columns.
  - assert (username ≠ "ID") as Hne.
    { apply (cell_at_None_not_ID t id); [done | by rewrite Hf | done]. }
    assert (cell_at (set_cells id username v (ensure_column username t))
                    id username = Some (Num v)) as Hset.
    { unfold cell_at. cbn [set_cells columns].
      rewrite bool_decide_eq_true_2 by apply ensure_column_columns.
      rewrite set_cells_filter by done.
      destruct (filter _ (rows (ensure_column username t))) as [|r' rs'];
        [done|].
      cbn. apply lookup_insert_eq. }
    exists (set_cells id username v (ensure_column username t)), true.
    split; [done|]. split; [done|]. split; [done|].
    split; [|done]. intros v'. rewrite set_label_run by done.
    rewrite set_cells_filter by done.
    destruct (filter _ (rows (ensure_column username t))); [done|].
    rewrite fmap_cons, Hset.
    by rewrite ensure_column_id by apply ensure_column_columns.
Qed.

Lemma set_label_first_write_wins_witness :
  "ID" ∈ columns t0 ∧ Some (Str "a") ∈ ID_column t0
  ∧ ∃ t1, set_label t0 "a" "alice" 1 = Return (Some (t1, true))
        ∧ cell_at t1 "a" "alice" = Some (Num 1)
        ∧ set_label t1 "a" "alice" 0 = Return (Some (t1, false)).
Proof.
  assert ("ID" ∈ columns t0) as HID by left.
  assert (Some (Str "a") ∈ ID_column t0) as Hid.
  { apply (bool_decide_unpack _). vm_compute. exact I. }
  split; [exact HID|]. split; [exact Hid|].
  destruct (set_label_first_write_wins t0 "a" "alice" 1 HID Hid)
    as (t1 & changed & Hcall & Hchanged & Hcell & Hagain & _).
  exists t1. rewrite Hcall, Hchanged.
  split; [reflexivity|]. split; [exact Hcell | apply Hagain].
Defined.

(* ===================================================================== *)
(** ** The click handler                                                  *)
(* ===================================================================== *)

Lemma reconcile_columns_ID (cols : list string) : "ID" ∈ reconcile_columns cols.
Proof.
  unfold reconcile_columns. case_bool_decide; [left|].
  apply elem_of_app. left. left.
Qed.

Lemma load_annotations_columns_ID (ids : list string) (csv : option frame)
    (t : frame) :
  load_annotations ids csv = Return t → "ID" ∈ columns t.
Proof.
  intros [_ ->]%load_annotations_inv. apply reconcile_columns_ID.
Qed.

Lemma load_annotations_ID_column (ids : list string) (csv : option frame)
    (t : frame) :
  load_annotations ids csv = Return t →
  ID_column t = (λ i, Some (Str i)) <$> ids.
Proof.
  intros [_ ->]%load_annotations_inv. apply reconcile_ID_column.
Qed.

(** The state in which the handler leaves the world once the label was
    written: the table is saved, pushed, and the current id is cleared. *)
Lemma update_label_and_rerun_run (ids : list string) (net : option exn)
    (u cur : string) (v : Z) (w : world) (t : frame) :
  load_annotations ids (csv w) = Return t →
  update_label_and_rerun ids net u cur v w =
  match filter (Pandas.has_ID cur) (rows t) with
  | [] =>
      (Return tt,
       with_events w
         [Call_load_annotations;
          St_error ("Internal error: ID " +:+ cur
                    +:+ " not found in annotation file.")])
  | _ :: _ =>
      match cell_at t cur u with
      | Some _ =>
          (Return tt,
           World (csv w) (dropbox w) PyNone
                 (events w ++ [Call_load_annotations;
                               Assign_current_id PyNone; St_rerun]))
      | None =>
          let t' := set_cells cur u v (ensure_column u t) in
          let w3 := (upload_to_dropbox net
                       (World (Some (saved t')) (dropbox w) (current_id w)
                              (events w ++ [Call_load_annotations;
                                            Assign_label cur u v;
                                            Call_save_annotations]))).2 in
          (Return tt,
           World (csv w3) (dropbox w3) PyNone
                 (events w3 ++ [Assign_current_id PyNone; St_rerun]))
      end
  end.
Proof.
  intros Hload. pose proof (load_annotations_columns_ID _ _ _ Hload) as HID.
  unfold update_label_and_rerun.
  erewrite prog_bind_Return by (rewrite load_run, Hload; reflexivity).
  erewrite prog_bind_Return
    by (unfold lift; rewrite set_label_run by done; reflexivity).
  destruct (filter (Pandas.has_ID cur) (rows t)) as [|r rs].
  { unfold emit. by rewrite with_events_app. }
  destruct (cell_at t cur u) as [x|].
  { run_prog. by rewrite <- !app_assoc. }
  set (t' := set_cells cur u v (ensure_column u t)).
  assert ("ID" ∈ columns t') as HID' by by apply ensure_column_incl.
  erewrite prog_bind_Return.
  2: { run_prog. rewrite save_run by done. cbn [csv dropbox current_id events].
       rewrite <- !app_assoc. cbn [app].
       rewrite upload_to_dropbox_run. reflexivity. }
  rewrite upload_to_dropbox_run. run_prog.
  destruct net; cbn; by rewrite <- ?app_assoc.
Qed.

(** C4.  When the current id is not in the reloaded table, the handler
    shows the internal error and stops there: it returns without saving,
    without pushing and without clearing the current id, so the local
    file, the remote copy and the session are what they were. *)
Theorem click_on_unknown_id_changes_nothing (ids : list string)
    (net : option exn) (username cur : string) (b : button) (w : world)
    (t : frame) :
  load_annotations ids (csv w) = Return t →
  Some (Str cur) ∉ ID_column t →
  ∃ w', on_click ids net username cur b w = (Return tt, w')
    ∧ events w' = (events w ++
        [Call_load_annotations;
         St_error ("Internal error: ID " +:+ cur
                   +:+ " not found in annotation file.")])
    ∧ csv w' = csv w
    ∧ dropbox w' = dropbox w
    ∧ current_id w' = current_id w
    ∧ load_annotations ids (csv w') = Return t.
Proof.
  intros Hload Hcur%filter_has_ID_nil. eexists. split.
  { unfold on_click. rewrite (update_label_and_rerun_run _ _ _ _ _ _ t) by done.
    rewrite Hcur. reflexivity. }
  by repeat split.
Qed.

Lemma click_on_unknown_id_changes_nothing_witness :
  (load_annotations ["a"; "b"; "c"] (csv w0)
   = Return (reconcile ["a"; "b"; "c"] t0))
  ∧ (Some (Str "zz") ∉ ID_column (reconcile ["a"; "b"; "c"] t0))
  ∧ ∃ w', on_click ["a"; "b"; "c"] None "alice" "zz" Yes w0 = (Return tt, w')
        ∧ csv w' = csv w0 ∧ current_id w' = current_id w0.
Proof.
  assert (load_annotations ["a"; "b"; "c"] (csv w0)
          = Return (reconcile ["a"; "b"; "c"] t0)) as Hload.
  { vm_compute. reflexivity. }
  assert (Some (Str "zz") ∉ ID_column (reconcile ["a"; "b"; "c"] t0)) as Hcur.
  { apply (bool_decide_unpack _). vm_compute. exact I. }
  split; [exact Hload|]. split; [exact Hcur|].
  destruct (click_on_unknown_id_changes_nothing
              ["a"; "b"; "c"] None "alice" "zz" Yes w0 _ Hload Hcur)
    as (w' & Hrun & _ & Hcsv & _ & Hcur' & _).
  exists w'. split; [exact Hrun|]. split; [exact Hcsv | exact Hcur'].
Defined.

(** C3, as the code has it.  After the reload, for a current id that is
    in the table: when the user's cell is unset the handler performs, in
    order, the write of the label, the save, the push and the clearing of
    the current id, then reruns; when the cell is already set it performs
    neither the save nor the push, leaves the file and the remote copy as
    they were, and only clears the current id before the rerun. *)
Theorem click_cycle (ids : list string) (net : option exn)
    (username cur : string) (b : button) (w : world) (t : frame) :
  load_annotations ids (csv w) = Return t →
  Some (Str cur) ∈ ID_column t →
  ∃ w', on_click ids net username cur b w = (Return tt, w')
    ∧ current_id w' = PyNone
    ∧ match cell_at t cur username with
      | None =>
          events w' =
            (events w ++
             [Call_load_annotations;
              Assign_label cur username (label_of b);
              Call_save_annotations; Call_upload_to_dropbox;
              Call_files_upload] ++
             match net with
             | Some e => [St_warning ("Could not upload CSV to Dropbox: "
                                      +:+ exn_message e)]
             | None => []
             end ++
             [Assign_current_id PyNone; St_rerun])
          ∧ performs (full_cycle cur username (label_of b))
                     (drop (length (events w)) (events w'))
          ∧ csv w' = Some (saved (set_cells cur username (label_of b)
                                            (ensure_column username t)))
          ∧ dropbox w' = match net with
                         | Some _ => dropbox w
                         | None => csv w'
                         end
      | Some _ =>
          events w' = (events w ++ [Call_load_annotations;
                                    Assign_current_id PyNone; St_rerun])
          ∧ csv w' = csv w
          ∧ dropbox w' = dropbox w
      end.
Proof.
  intros Hload Hcur.
  assert (filter (Pandas.has_ID cur) (rows t) ≠ []) as Hfound.
  { by intros Hnil%filter_has_ID_nil. }
  unfold on_click. rewrite (update_label_and_rerun_run _ _ _ _ _ _ t) by done.
  destruct (filter (Pandas.has_ID cur) (rows t)); [done|].
  destruct (cell_at t cur username) as [x|].
  { eexists. split; [reflexivity|]. done. }
  cbv zeta. rewrite upload_to_dropbox_run.
  cbn [csv dropbox current_id events snd].
  eexists. split; [reflexivity|]. cbn [csv dropbox current_id events].
  split; [done|].
  assert (∀ tail : list event,
    performs (full_cycle cur username (label_of b))
      ([Call_load_annotations; Assign_label cur username (label_of b);
        Call_save_annotations; Call_upload_to_dropbox; Call_files_upload]
       ++ tail ++ [Assign_current_id PyNone; St_rerun])) as Hperf.
  { intros tail. unfold performs, full_cycle. cbn [app].
    do 4 apply sublist_skip. apply sublist_cons.
    apply sublist_inserts_l. done. }
  destruct net as [e|]; cbn [csv dropbox current_id events with_events].
  - split; [by rewrite <- !app_assoc|]. split; [|done].
    rewrite <- !app_assoc, drop_app_length. apply (Hperf [_]).
  - split; [by rewrite <- !app_assoc|]. split; [|done].
    rewrite <- !app_assoc, drop_app_length. apply (Hperf []).
Qed.

Lemma click_cycle_witness :
  (load_annotations ["a"; "b"; "c"] (csv w0)
   = Return (reconcile ["a"; "b"; "c"] t0))
  ∧ (Some (Str "a") ∈ ID_column (reconcile ["a"; "b"; "c"] t0))
  ∧ ∃ w', on_click ["a"; "b"; "c"] None "alice" "a" Yes w0 = (Return tt, w')
        ∧ current_id w' = PyNone.
Proof.
  assert (load_annotations ["a"; "b"; "c"] (csv w0)
          = Return (reconcile ["a"; "b"; "c"] t0)) as Hload.
  { vm_compute. reflexivity. }
  assert (Some (Str "a") ∈ ID_column (reconcile ["a"; "b"; "c"] t0)) as Hcur.
  { apply (bool_decide_unpack _). vm_compute. exact I. }
  split; [exact Hload|]. split; [exact Hcur|].
  destruct (click_cycle ["a"; "b"; "c"] None "alice" "a" Yes w0 _ Hload Hcur)
    as (w' & Hrun & Hcleared & _).
  exists w'. split; [exact Hrun | exact Hcleared].
Defined.

(** C3 as it is written fails: a click on an item that alice has already
    labelled runs the reload and clears the current id, but neither saves
    nor pushes. *)
Lemma click_on_labelled_cell_skips_save :
  let w' := (on_click ["a"; "b"; "c"] None "alice" "b" No w_labelled).2 in
  events w' = [Call_load_annotations; Assign_current_id PyNone; St_rerun]
  ∧ (Call_save_annotations ∉ events w')
  ∧ (Call_upload_to_dropbox ∉ events w')
  ∧ ¬ performs (full_cycle "b" "alice" (label_of No)) (events w').
Proof.
  cbv zeta.
  assert ((on_click ["a"; "b"; "c"] None "alice" "b" No w_labelled).2.(events)
          = [Call_load_annotations; Assign_current_id PyNone; St_rerun]) as ->.
  { vm_compute. reflexivity. }
  split; [done|].
  split; [by intros [?|[?|[?|?%elem_of_nil]%elem_of_cons]%elem_of_cons]%elem_of_cons|].
  split; [by intros [?|[?|[?|?%elem_of_nil]%elem_of_cons]%elem_of_cons]%elem_of_cons|].
  intros Hsub%sublist_length. cbn in Hsub. lia.
Qed.

(* ===================================================================== *)
(** ** The item selector                                                  *)
(* ===================================================================== *)

Lemma labeled_plus_remaining (u : string) (df : frame) :
  already_labeled u df + length (remaining_ids u df) = length (rows df).
Proof.
  unfold already_labeled, remaining_ids. rewrite length_fmap.
  induction (rows df) as [|r rs IH]; [done|].
  rewrite !filter_cons. destruct (r !! u) as [x|] eqn:Hr.
  - rewrite decide_True by done. rewrite decide_False by done. cbn. lia.
  - rewrite decide_False by (by intros [? ?]). rewrite decide_True by done.
    cbn. lia.
Qed.

Lemma remaining_zero (u : string) (df : frame) :
  length (rows df) - already_labeled u df = 0 ↔ remaining_ids u df = [].
Proof.
  pose proof (labeled_plus_remaining u df) as Hsum.
  destruct (remaining_ids u df); cbn in *; split; intros; (done || lia).
Qed.

Lemma random_choice_run (k : nat) (seq : list string) (w : world) (c0 : string) :
  seq ≠ [] →
  let c := default c0 (seq !! (k mod length seq)) in
  c ∈ seq ∧ random_choice k seq w = (Return c, with_events w [Call_random_choice seq]).
Proof.
  intros Hseq.
  assert (k mod length seq < length seq) as Hlt.
  { apply Nat.mod_upper_bound. by destruct seq. }
  apply lookup_lt_is_Some_2 in Hlt as [c Hc]. cbn zeta. rewrite Hc. cbn.
  split; [by eapply list_elem_of_lookup_2|].
  unfold random_choice. run_prog. by rewrite Hc.
Qed.

(** [choose_item] by cases: no user column, nothing left, a held id that
    is still unlabelled, or a fresh draw. *)
Lemma choose_item_run (ids : list string) (k : nat) (u : string) (df : frame)
    (w : world) :
  choose_item ids k u df w =
  if bool_decide (u ∈ columns df) then
    match remaining_ids u df with
    | [] =>
        (Return Completed,
         with_events w
           [St_success "You have labeled all 200 entries. Thank you!"; St_stop])
    | c0 :: _ =>
        let rem := remaining_ids u df in
        match current_id w with
        | Held i =>
            if bool_decide (i ∈ rem) then show_item ids i w
            else
              let c := default c0 (rem !! (k mod length rem)) in
              show_item ids c
                (World (csv w) (dropbox w) (Held c)
                   (events w ++ [Call_random_choice rem;
                                 Assign_current_id (Held c)]))
        | Missing | PyNone =>
            let c := default c0 (rem !! (k mod length rem)) in
            show_item ids c
              (World (csv w) (dropbox w) (Held c)
                 (events w ++ [Call_random_choice rem;
                               Assign_current_id (Held c)]))
        end
    end
  else (Raise (KeyError u), w).
Proof.
  unfold choose_item, Pandas.require_column.
  destruct (decide (u ∈ columns df)) as [Hu|Hu];
    [rewrite !(bool_decide_eq_true_2 (u ∈ columns df)) by done
    |by rewrite !(bool_decide_eq_false_2 (u ∈ columns df)) by done].
  erewrite prog_bind_Return by reflexivity.
  destruct (remaining_ids u df) as [|c0 rest] eqn:Hrem.
  { rewrite bool_decide_eq_true_2 by (by apply remaining_zero).
    run_prog. by rewrite <- app_assoc. }
  rewrite bool_decide_eq_false_2
    by (rewrite remaining_zero; by rewrite Hrem).
  erewrite prog_bind_Return by reflexivity. cbn zeta.
  destruct (random_choice_run k (c0 :: rest) w c0) as [_ Hpick]; [done|].
  cbn zeta in Hpick.
  assert (pick k (c0 :: rest) w =
          (Return (default c0 ((c0 :: rest) !! (k mod length (c0 :: rest)))),
           World (csv w) (dropbox w)
             (Held (default c0 ((c0 :: rest) !! (k mod length (c0 :: rest)))))
             (events w ++ [Call_random_choice (c0 :: rest);
                           Assign_current_id
                             (Held (default c0 ((c0 :: rest)
                                      !! (k mod length (c0 :: rest)))))])))
    as Hpick'.
  { unfold pick. erewrite prog_bind_Return by exact Hpick.
    run_prog. by rewrite <- app_assoc. }
  cbn [current_id with_events].
  destruct (current_id w) as [| |i].
  - by erewrite prog_bind_Return by exact Hpick'.
  - by erewrite prog_bind_Return by exact Hpick'.
  - case_bool_decide.
    + by erewrite prog_bind_Return by reflexivity.
    + by erewrite prog_bind_Return by exact Hpick'.
Qed.

Lemma show_item_run (ids : list string) (cur : string) (w : world) :
  ∃ evs, (show_item ids cur w).2 = with_events w evs
    ∧ (∀ seq, Call_random_choice seq ∉ evs)
    ∧ ((show_item ids cur w).1 = Return (Showing cur) ∧ evs = []
       ∨ (show_item ids cur w).1 = Return (NoEntry cur)).
Proof.
  unfold show_item. case_bool_decide.
  - exists []. run_prog. rewrite app_nil_r.
    split; [by destruct w|]. split; [|by left].
    intros seq. apply not_elem_of_nil.
  - eexists. run_prog. rewrite <- app_assoc.
    split; [reflexivity|]. split; [|by right].
    intros seq [?|[?|?%elem_of_nil]%elem_of_cons]%elem_of_cons; done.
Qed.

Lemma choose_item_cases (ids : list string) (k : nat) (u : string) (df : frame)
    (w : world) :
  u ∈ columns df → remaining_ids u df ≠ [] →
  (∃ i, current_id w = Held i ∧ i ∈ remaining_ids u df
        ∧ choose_item ids k u df w = show_item ids i w)
  ∨ ((∀ i, current_id w = Held i → i ∉ remaining_ids u df)
     ∧ ∃ c, c ∈ remaining_ids u df
          ∧ choose_item ids k u df w =
            show_item ids c
              (World (csv w) (dropbox w) (Held c)
                 (events w ++ [Call_random_choice (remaining_ids u df);
                               Assign_current_id (Held c)]))).
Proof.
  intros Hu Hrem. rewrite choose_item_run, bool_decide_eq_true_2 by done.
  destruct (remaining_ids u df) as [|c0 rest] eqn:Hr; [done|]. cbn zeta.
  destruct (random_choice_run k (c0 :: rest) w c0) as [Hin _]; [done|].
  cbn zeta in Hin.
  destruct (current_id w) as [| |i] eqn:Hcur.
  - right. split; [done|]. eexists. split; [exact Hin | done].
  - right. split; [done|]. eexists. split; [exact Hin | done].
  - case_bool_decide as Hi.
    + left. exists i. done.
    + right. split; [by intros ? [= <-]|].
      eexists. split; [exact Hin | done].
Qed.

(** C8.  The selector never draws from an empty list and never raises
    [IndexError].  Whenever [random.choice] is called in a run, its
    argument is the list of ids the user has not labelled, that list is
    not empty, no held current id was in it, and the id drawn is in the
    list and becomes the current id.  Without a draw the current id is
    kept.  When the user has labelled every id, the run shows the
    completion message and stops without a draw; when ids remain, the
    item shown is an unlabelled one, the held one if it is still
    unlabelled. *)
Theorem random_pick_safe (ids : list string) (k : nat) (username : string)
    (df : frame) (w : world) :
  let rem := remaining_ids username df in
  ∃ out evs w',
    choose_item ids k username df w = (out, w')
    ∧ events w' = (events w ++ evs)
    ∧ out ≠ Raise IndexError
    ∧ (∀ seq, Call_random_choice seq ∈ evs →
         seq = rem ∧ rem ≠ []
         ∧ (∀ i, current_id w = Held i → i ∉ rem)
         ∧ ∃ c, c ∈ rem ∧ current_id w' = Held c
              ∧ (out = Return (Showing c) ∨ out = Return (NoEntry c)))
    ∧ ((∀ seq, Call_random_choice seq ∉ evs) → current_id w' = current_id w)
    ∧ (username ∈ columns df → rem = [] →
         out = Return Completed
         ∧ evs = [St_success "You have labeled all 200 entries. Thank you!";
                  St_stop])
    ∧ (username ∈ columns df → rem ≠ [] →
         ∃ c, c ∈ rem ∧ current_id w' = Held c
              ∧ (out = Return (Showing c) ∨ out = Return (NoEntry c))
              ∧ (∀ i, current_id w = Held i → i ∈ rem →
                      c = i ∧ ∀ seq, Call_random_choice seq ∉ evs)).
Proof.
  intros rem. subst rem.
  destruct (decide (username ∈ columns df)) as [Hu|Hu].
  2: { rewrite choose_item_run, bool_decide_eq_false_2 by done.
       exists (Raise (KeyError username)), [], w.
       rewrite app_nil_r. split; [done|]. split; [done|]. split; [done|].
       split; [intros seq Hin; by apply elem_of_nil in Hin|].
       split; [done|]. split; done. }
  destruct (decide (remaining_ids username df = [])) as [Hrem|Hrem].
  { rewrite choose_item_run, bool_decide_eq_true_2, Hrem by done.
    eexists _, _, _. split; [reflexivity|]. cbn.
    split; [done|]. split; [done|].
    split; [by intros seq [?|[?|?%elem_of_nil]%elem_of_cons]%elem_of_cons|].
    split; [done|]. split; done. }
  destruct (choose_item_cases ids k username df w Hu Hrem)
    as [(i & Hcur & Hi & ->)|(Hheld & c & Hc & ->)].
  - destruct (show_item_run ids i w) as (evs & Hw & Hnone & Hout).
    destruct (show_item ids i w) as [out w'] eqn:Hshow. cbn in Hw, Hout.
    subst w'. exists out, evs, (with_events w evs).
    split; [done|]. split; [done|].
    split; [by destruct Hout as [[-> _]| ->]|].
    split; [intros seq Hin; by apply Hnone in Hin|].
    split; [done|]. split; [done|]. intros _.
    exists i. split; [done|]. split; [done|].
    split; [destruct Hout as [[-> _]| ->]; auto|].
    intros j Hj _. split; [congruence | done].
  - set (w1 := World (csv w) (dropbox w) (Held c) _).
    destruct (show_item_run ids c w1) as (evs & Hw & Hnone & Hout).
    destruct (show_item ids c w1) as [out w'] eqn:Hshow. cbn in Hw, Hout.
    subst w'.
    exists out,
      ([Call_random_choice (remaining_ids username df);
        Assign_current_id (Held c)] ++ evs),
      (with_events w1 evs).
    split; [done|].
    split; [subst w1; cbn; by rewrite <- app_assoc|].
    split; [by destruct Hout as [[-> _]| ->]|].
    assert (∃ c', c' ∈ remaining_ids username df
                  ∧ current_id (with_events w1 evs) = Held c'
                  ∧ (out = Return (Showing c') ∨ out = Return (NoEntry c')))
      as Hdrawn.
    { exists c. split; [done|]. split; [done|].
      destruct Hout as [[-> _]| ->]; auto. }
    split.
    { intros seq [Hseq|[?|Hin]%elem_of_cons]%elem_of_cons;
        [|done|by apply Hnone in Hin].
      injection Hseq as ->. done. }
    split; [intros Hno; by destruct (Hno (remaining_ids username df)); left|].
    split; [done|]. intros _.
    exists c. split; [done|]. split; [done|].
    split; [destruct Hout as [[-> _]| ->]; auto|].
    intros j Hj Hjrem. by destruct (Hheld j Hj).
Qed.

(* ===================================================================== *)
(** ** The rerun after a click                                            *)
(* ===================================================================== *)

Lemma startup_frame (net : option exn) (w : world) :
  ∃ evs w1, startup net w = (Return tt, w1)
    ∧ current_id w1 = current_id w ∧ events w1 = events w ++ evs.
Proof.
  rewrite startup_run, download_from_dropbox_run.
  destruct net as [[]|], (dropbox w); cbn;
    eexists _, _; (split; [reflexivity|]); cbn;
    (split; [reflexivity|]); by rewrite <- app_assoc.
Qed.

Lemma save_frame (df : frame) (w : world) :
  ∃ out evs w1, save df w = (out, w1)
    ∧ current_id w1 = current_id w ∧ events w1 = events w ++ evs.
Proof.
  unfold save. run_prog. destruct (save_annotations df);
    eexists _, _, _; (split; [reflexivity|]); done.
Qed.

Lemma load_for_user_frame (ids : list string) (u : string) (w : world) :
  ∃ out evs w1, load_for_user ids u w = (out, w1)
    ∧ current_id w1 = current_id w ∧ events w1 = events w ++ evs.
Proof.
  unfold load_for_user.
  destruct (load_annotations ids (csv w)) as [df|e] eqn:Hload.
  2: { erewrite prog_bind_Raise by (rewrite load_run, Hload; reflexivity).
       eexists _, _, _. split; [reflexivity|]. done. }
  erewrite prog_bind_Return by (rewrite load_run, Hload; reflexivity).
  case_bool_decide.
  { eexists _, _, _. split; [reflexivity|]. done. }
  destruct (save_frame (Pandas.assign_column u None df)
              (with_events w [Call_load_annotations]))
    as ([[]|e] & evs & w1 & Hsave & Hcur & Hevs).
  - erewrite prog_bind_Return by exact Hsave. rewrite load_run.
    eexists _, _, _. split; [reflexivity|]. cbn. split; [done|].
    rewrite Hevs. cbn. by rewrite <- !app_assoc.
  - erewrite prog_bind_Raise by exact Hsave.
    eexists _, _, _. split; [reflexivity|]. split; [done|].
    rewrite Hevs. cbn. by rewrite <- !app_assoc.
Qed.

(** With no current id held, an item that is shown was drawn in this run
    from the ids the user has not labelled. *)
Lemma render_fresh (ids : list string) (net : option exn) (k : nat)
    (u i : string) (w w2 : world) :
  (∀ j, current_id w ≠ Held j) →
  render ids net k u w = (Return (Showing i), w2) →
  current_id w2 = Held i
  ∧ ∃ pre rem, events w2 = events w ++ pre ++
                 [Call_random_choice rem; Assign_current_id (Held i)]
             ∧ i ∈ rem.
Proof.
  intros Hfree. unfold render, select_item.
  destruct (startup_frame net w) as (evs0 & w0' & Hstart & Hcur0 & Hevs0).
  erewrite prog_bind_Return by exact Hstart.
  destruct (load_for_user_frame ids u w0')
    as ([df|e] & evs1 & w1 & Hload & Hcur1 & Hevs1).
  2: { by erewrite prog_bind_Raise by exact Hload. }
  erewrite prog_bind_Return by exact Hload.
  destruct (decide (u ∈ columns df)) as [Hu|Hu].
  2: { by rewrite choose_item_run, bool_decide_eq_false_2 by done. }
  destruct (decide (remaining_ids u df = [])) as [Hrem|Hrem].
  { by rewrite choose_item_run, bool_decide_eq_true_2, Hrem by done. }
  destruct (choose_item_cases ids k u df w1 Hu Hrem)
    as [(j & Hheld & _)|(_ & c & Hc & ->)].
  { rewrite Hcur1, Hcur0 in Hheld. by destruct (Hfree j). }
  unfold show_item. case_bool_decide; run_prog; [|done].
  intros [= -> <-]. cbn. split; [done|].
  exists (evs0 ++ evs1), (remaining_ids u df). split; [|done].
  rewrite Hevs1, Hevs0. by rewrite <- !app_assoc.
Qed.

(** C9.  A click on a cell that is already set for the user calls neither
    the save nor the push: the handler only reloads, so the local file
    and the remote copy are exactly what they were.  It still clears the
    current id, so that on the rerun the selector holds no id and the item
    it shows is a new draw from the ids the user has not labelled. *)
Theorem noop_click_skips_save_and_push (ids : list string) (net : option exn)
    (username cur : string) (b : button) (w : world) (t : frame) (x : value) :
  load_annotations ids (csv w) = Return t →
  Some (Str cur) ∈ ID_column t →
  cell_at t cur username = Some x →
  ∃ w', on_click ids net username cur b w = (Return tt, w')
    ∧ events w' = events w ++ [Call_load_annotations;
                                Assign_current_id PyNone; St_rerun]
    ∧ csv w' = csv w
    ∧ dropbox w' = dropbox w
    ∧ current_id w' = PyNone
    ∧ ∀ net' k i w2,
        render ids net' k username w' = (Return (Showing i), w2) →
        current_id w2 = Held i
        ∧ ∃ pre rem, events w2 = events w' ++ pre ++
                       [Call_random_choice rem; Assign_current_id (Held i)]
                   ∧ i ∈ rem.
Proof.
  intros Hload Hcur Hcell.
  assert (filter (Pandas.has_ID cur) (rows t) ≠ []) as Hfound.
  { by intros Hnil%filter_has_ID_nil. }
  unfold on_click. rewrite (update_label_and_rerun_run _ _ _ _ _ _ t) by done.
  destruct (filter (Pandas.has_ID cur) (rows t)); [done|]. rewrite Hcell.
  eexists. split; [reflexivity|]. cbn [csv dropbox current_id events].
  split; [done|]. split; [done|]. split; [done|]. split; [done|].
  intros net' k i w2. by apply render_fresh.
Qed.

Lemma noop_click_skips_save_and_push_witness :
  (load_annotations ["a"; "b"; "c"] (csv w_labelled)
   = Return (reconcile ["a"; "b"; "c"] t0))
  ∧ (Some (Str "b") ∈ ID_column (reconcile ["a"; "b"; "c"] t0))
  ∧ cell_at (reconcile ["a"; "b"; "c"] t0) "b" "alice" = Some (Num 1)
  ∧ ∃ w' w2, on_click ["a"; "b"; "c"] None "alice" "b" No w_labelled
             = (Return tt, w')
        ∧ csv w' = csv w_labelled
        ∧ dropbox w' = dropbox w_labelled
        ∧ current_id w' = PyNone
        ∧ render ["a"; "b"; "c"] None 5 "alice" w' = (Return (Showing "c"), w2)
        ∧ current_id w2 = Held "c".
Proof.
  assert (load_annotations ["a"; "b"; "c"] (csv w_labelled)
          = Return (reconcile ["a"; "b"; "c"] t0)) as Hload.
  { vm_compute. reflexivity. }
  assert (Some (Str "b") ∈ ID_column (reconcile ["a"; "b"; "c"] t0)) as Hcur.
  { apply (bool_decide_unpack _). vm_compute. exact I. }
  assert (cell_at (reconcile ["a"; "b"; "c"] t0) "b" "alice" = Some (Num 1))
    as Hcell.
  { vm_compute. reflexivity. }
  split; [exact Hload|]. split; [exact Hcur|]. split; [exact Hcell|].
  destruct (noop_click_skips_save_and_push
              ["a"; "b"; "c"] None "alice" "b" No w_labelled _ _
              Hload Hcur Hcell)
    as (w' & Hrun & Hevs & Hcsv & Hremote & Hcleared & Hrerun).
  exists w', (render ["a"; "b"; "c"] None 5 "alice" w').2.
  split; [exact Hrun|]. split; [exact Hcsv|].
  split; [exact Hremote|]. split; [exact Hcleared|].
  assert (render ["a"; "b"; "c"] None 5 "alice" w'
          = (Return (Showing "c"),
             (render ["a"; "b"; "c"] None 5 "alice" w').2)) as Hshown.
  { assert (w' = (on_click ["a"; "b"; "c"] None "alice" "b" No w_labelled).2)
      as -> by (by rewrite Hrun).
    vm_compute. reflexivity. }
  split; [exact Hshown|].
  exact (proj1 (Hrerun None 5 "c" _ Hshown)).
Defined.

(* ===================================================================== *)
(** ** Labels survive the reload                                          *)
(* ===================================================================== *)

Section Persist.
Import Pandas.

Lemma load_annotations_ID_texts (ids : list string) (csv : option frame)
    (t : frame) :
  load_annotations ids csv = Return t → ID_texts t.
Proof.
  intros Hcol%load_annotations_ID_column. unfold ID_texts, ID_column in *.
  apply Forall_forall. intros r Hr.
  assert (r !! "ID" ∈ (λ r : row, r !! "ID") <$> rows t) as Hin
    by by apply list_elem_of_fmap_2.
  rewrite Hcol in Hin. apply list_elem_of_fmap in Hin as (i & Hi & _).
  by exists i.
Qed.

(** On a table whose ID cells are texts, the rows found by the text of
    the ID are the rows found by the ID cell. *)
Lemma first_with_ID_texts (t : frame) (id : string) :
  ID_texts t →
  first_with_ID id (rows t) = head (filter (has_ID id) (rows t)).
Proof.
  intros Htexts. unfold first_with_ID. f_equal. apply filter_ext_elem.
  intros r Hr. unfold ID_texts in Htexts. rewrite Forall_forall in Htexts.
  destruct (Htexts r Hr) as [i Hi]. unfold ID_of, has_ID. rewrite Hi. cbn.
  split; [by intros -> | by intros [= ->]].
Qed.

Lemma filter_has_ID_fmap (f : string → row) (ids : list string) (id : string) :
  (∀ i, f i !! "ID" = Some (Str i)) →
  filter (has_ID id) (f <$> ids) = f <$> filter (λ i, i = id) ids.
Proof.
  intros Hf. induction ids as [|i ids IH]; [done|].
  rewrite fmap_cons, !filter_cons, IH.
  destruct (decide (i = id)) as [->|Hne].
  - rewrite decide_True; [done | apply Hf].
  - rewrite decide_False; [done|]. unfold has_ID. rewrite Hf. by intros [= ?].
Qed.

(** The cell-level round trip: what a reload reads in a cell of a sample
    id is what the saved table held there. *)
Lemma cell_at_reconcile (ids : list string) (t : frame) (id c : string) :
  ID_texts t → id ∈ ids → c ∈ columns t → c ≠ "ID" → c ≠ "GPT" →
  cell_at (reconcile ids t) id c = cell_at t id c.
Proof.
  intros Htexts Hid Hc Hne1 Hne2. unfold cell_at.
  rewrite bool_decide_eq_true_2 by by apply reconcile_columns_incl.
  rewrite bool_decide_eq_true_2 by done.
  unfold reconcile. cbn [rows].
  rewrite (filter_has_ID_fmap _ ids id) by (intros; apply reconcile_row_ID).
  destruct (filter (λ i, i = id) ids) as [|i rest] eqn:Hf.
  { exfalso. eapply (filter_nil_not_elem_of _ _ id); done. }
  assert (i ∈ filter (λ i, i = id) ids) as Hi by (rewrite Hf; left).
  apply list_elem_of_filter in Hi as [-> _]. cbn.
  rewrite reconcile_row_other by done.
  by rewrite first_with_ID_texts.
Qed.

Lemma ensure_column_ID_texts (u : string) (t : frame) :
  "ID" ∈ columns t → ID_texts t → ID_texts (ensure_column u t).
Proof.
  intros HID Htexts. unfold ensure_column. case_bool_decide as Hu; [done|].
  assert (u ≠ "ID") as Hne by (by intros ->).
  unfold ID_texts in *. cbn [assign_column rows].
  apply Forall_fmap. eapply Forall_impl; [exact Htexts|].
  intros r [i Hi]. exists i. cbn. by rewrite lookup_delete_ne.
Qed.

Lemma set_cells_ID_texts (id u : string) (v : Z) (t : frame) :
  u ≠ "ID" → ID_texts t → ID_texts (set_cells id u v t).
Proof.
  intros Hne Htexts. unfold ID_texts in *. cbn [set_cells rows].
  apply Forall_fmap. eapply Forall_impl; [exact Htexts|].
  intros r [i Hi]. exists i. cbn.
  destruct (decide _); [by rewrite lookup_insert_ne | done].
Qed.

Lemma ensure_column_GPT_ok (u : string) (t : frame) :
  forallb GPT_ok (rows t) = true →
  forallb GPT_ok (rows (ensure_column u t)) = true.
Proof.
  intros Hok. unfold ensure_column. case_bool_decide; [done|].
  cbn [assign_column rows]. rewrite forallb_forall in *.
  intros r' (r & -> & Hr)%list_elem_of_In%list_elem_of_fmap.
  apply list_elem_of_In, Hok in Hr. unfold GPT_ok in *.
  destruct (decide (u = "GPT")) as [->|Hne].
  - by rewrite lookup_delete_eq.
  - by rewrite lookup_delete_ne.
Qed.

Lemma set_cells_GPT_ok (id u : string) (v : Z) (t : frame) :
  forallb GPT_ok (rows t) = true →
  forallb GPT_ok (rows (set_cells id u v t)) = true.
Proof.
  intros Hok. cbn [set_cells rows]. rewrite forallb_forall in *.
  intros r' (r & -> & Hr)%list_elem_of_In%list_elem_of_fmap.
  apply list_elem_of_In, Hok in Hr. destruct (decide _); [|done].
  unfold GPT_ok in *. destruct (decide (u = "GPT")) as [->|Hne].
  - by rewrite lookup_insert_eq.
  - by rewrite lookup_insert_ne.
Qed.

End Persist.

Lemma reconcile_columns_GPT (cols : list string) : "GPT" ∈ reconcile_columns cols.
Proof.
  unfold reconcile_columns. case_bool_decide; [done|].
  apply elem_of_app. right. left.
Qed.

Lemma cell_at_set_cells (id u : string) (v : Z) (t : frame) :
  u ≠ "ID" → u ∈ columns t → filter (Pandas.has_ID id) (rows t) ≠ [] →
  cell_at (set_cells id u v t) id u = Some (Num v).
Proof.
  intros Hne Hu Hfound. unfold cell_at. cbn [set_cells columns].
  rewrite bool_decide_eq_true_2 by done.
  rewrite set_cells_filter by done.
  destruct (filter _ (rows t)) as [|r rs]; [done|].
  cbn. apply lookup_insert_eq.
Qed.

(** The handler run on a cell that is already set. *)
Lemma click_noop_run (ids : list string) (net : option exn) (u cur : string)
    (b : button) (w : world) (t : frame) (x : value) :
  load_annotations ids (csv w) = Return t →
  Some (Str cur) ∈ ID_column t →
  cell_at t cur u = Some x →
  on_click ids net u cur b w =
  (Return tt,
   World (csv w) (dropbox w) PyNone
         (events w ++ [Call_load_annotations;
                       Assign_current_id PyNone; St_rerun])).
Proof.
  intros Hload Hcur Hcell.
  assert (filter (Pandas.has_ID cur) (rows t) ≠ []) as Hfound.
  { by intros Hnil%filter_has_ID_nil. }
  unfold on_click. rewrite (update_label_and_rerun_run _ _ _ _ _ _ t) by done.
  destruct (filter (Pandas.has_ID cur) (rows t)); [done|]. by rewrite Hcell.
Qed.

(** Two clicks in a row on the same item by the same user, whatever the
    network does: the second never overwrites.  After both, the file
    holds for that user and id the value the cell had before the first
    click, or the first click's value when the cell was unset. *)
Theorem first_click_wins (ids : list string) (net1 net2 : option exn)
    (u cur : string) (b1 b2 : button) (w : world) (t : frame) :
  load_annotations ids (csv w) = Return t →
  Some (Str cur) ∈ ID_column t →
  ∃ w1 w2 t2,
    on_click ids net1 u cur b1 w = (Return tt, w1)
    ∧ on_click ids net2 u cur b2 w1 = (Return tt, w2)
    ∧ csv w2 = csv w1
    ∧ load_annotations ids (csv w2) = Return t2
    ∧ cell_at t2 cur u = Some (default (Num (label_of b1)) (cell_at t cur u)).
Proof.
  intros Hload Hcur.
  destruct (cell_at t cur u) as [x|] eqn:Hcell.
  { eexists _, _, t.
    split; [by eapply click_noop_run|].
    split; [by eapply click_noop_run|]. done. }
  pose proof (load_annotations_columns_ID _ _ _ Hload) as HID.
  pose proof (load_annotations_ID_column _ _ _ Hload) as Hcol.
  pose proof (load_annotations_ID_texts _ _ _ Hload) as Htexts.
  pose proof (numeric_GPT_ok _ (load_annotations_GPT_numeric _ _ _ Hload))
    as Hok.
  assert (cur ∈ ids) as Hin.
  { rewrite Hcol in Hcur.
    apply list_elem_of_fmap in Hcur as (i & [= ->] & Hi). done. }
  assert (filter (Pandas.has_ID cur) (rows t) ≠ []) as Hfound.
  { by intros Hnil%filter_has_ID_nil. }
  assert (u ≠ "ID") as Hne1 by by eapply cell_at_None_not_ID.
  assert (u ≠ "GPT") as Hne2.
  { intros ->. unfold cell_at in Hcell.
    rewrite bool_decide_eq_true_2 in Hcell.
    2: { apply load_annotations_inv in Hload as [_ ->].
         apply reconcile_columns_GPT. }
    destruct (filter (Pandas.has_ID cur) (rows t)) as [|r rs] eqn:Hf; [done|].
    assert (r ∈ rows t) as Hr.
    { assert (r ∈ filter (Pandas.has_ID cur) (rows t)) as Hr
        by (rewrite Hf; left).
      by apply list_elem_of_filter in Hr as [_ Hr]. }
    pose proof (load_annotations_GPT_numeric _ _ _ Hload) as Hnum.
    rewrite Forall_forall in Hnum. destruct (Hnum r Hr) as [z Hz].
    cbn in Hcell. congruence. }
  set (t' := set_cells cur u (label_of b1) (ensure_column u t)).
  assert (readable t') as Hreadable.
  { split; [by apply ensure_column_incl|].
    by apply set_cells_GPT_ok, ensure_column_GPT_ok. }
  assert (filter (Pandas.has_ID cur) (rows (ensure_column u t)) ≠ [])
    as Hfound'.
  { rewrite ensure_column_filter by done.
    destruct (filter (Pandas.has_ID cur) (rows t)); done. }
  assert (cell_at (reconcile ids t') cur u = Some (Num (label_of b1))) as Hnew.
  { rewrite cell_at_reconcile; try done.
    - apply cell_at_set_cells; [done | apply ensure_column_columns | done].
    - by apply set_cells_ID_texts, ensure_column_ID_texts.
    - apply ensure_column_columns. }
  assert (on_click ids net1 u cur b1 w =
          (Return tt,
           let w3 := (upload_to_dropbox net1
                        (World (Some (saved t')) (dropbox w) (current_id w)
                               (events w ++ [Call_load_annotations;
                                             Assign_label cur u (label_of b1);
                                             Call_save_annotations]))).2 in
           World (csv w3) (dropbox w3) PyNone
                 (events w3 ++ [Assign_current_id PyNone; St_rerun])))
    as Hfirst.
  { unfold on_click.
    rewrite (update_label_and_rerun_run _ _ _ _ _ _ t) by done.
    destruct (filter (Pandas.has_ID cur) (rows t)); [done|].
    by rewrite Hcell. }
  rewrite upload_to_dropbox_run in Hfirst.
  cbn [csv dropbox current_id events snd] in Hfirst.
  destruct net1 as [e|];
    cbn [with_events csv dropbox current_id events] in Hfirst;
    (eexists _, _, (reconcile ids t'); split; [exact Hfirst|]);
    (split;
     [eapply click_noop_run;
      [cbn [csv]; by apply load_saved
      |rewrite reconcile_ID_column; apply list_elem_of_fmap; by exists cur
      |exact Hnew]|]);
    (split; [done|]); (split; [cbn [csv]; by apply load_saved | done]).
Qed.

(* ===================================================================== *)
(** ** The scenarios of the design document, run on the model             *)
(* ===================================================================== *)

(** No annotation file and three samples: three rows, GPT = 0, no user
    column. *)
Example scenario_first_load :
  load_annotations ["41"; "42"; "43"] None =
  Return (Frame ["ID"; "GPT"]
            [ {[ "ID" := Str "41"; "GPT" := Num 0 ]};
              {[ "ID" := Str "42"; "GPT" := Num 0 ]};
              {[ "ID" := Str "43"; "GPT" := Num 0 ]} ]).
Proof. vm_compute. reflexivity. Qed.

(** Duplicates and unknown ids of the stored file are dropped, the first
    occurrence wins, and missing samples are added. *)
Example scenario_reconcile :
  load_annotations ["a"; "b"; "c"] (Some t0) =
  Return (Frame ["ID"; "GPT"; "alice"]
            [ {[ "ID" := Str "a"; "GPT" := Num 0 ]};
              {[ "ID" := Str "b"; "GPT" := Num 1; "alice" := Num 1 ]};
              {[ "ID" := Str "c"; "GPT" := Num 0 ]} ]).
Proof. vm_compute. reflexivity. Qed.

(** alice labels "42" as Yes, then clicks No on it: the file keeps 1. *)
Example scenario_alice_yes_then_no :
  let w1 := (on_click ["41"; "42"] None "alice" "42" Yes w_fresh).2 in
  let w2 := (on_click ["41"; "42"] None "alice" "42" No w1).2 in
  (t ← load_annotations ["41"; "42"] (csv w2);
   Return (cell_at t "42" "alice", cell_at t "41" "alice"))
  = Return (Some (Num 1), None)
  ∧ csv w2 = csv w1.
Proof. vm_compute. split; reflexivity. Qed.

(** bob has labelled everything: completion, and no draw. *)
Example scenario_bob_done :
  render ["41"; "42"] None 7 "bob" (World (Some t_bob) (Some t_bob) Missing [])
  = (Return Completed,
     World (Some t_bob) (Some t_bob) Missing
       [Call_files_download; St_info "Loaded latest CSV from Dropbox.";
        Call_load_annotations;
        St_success "You have labeled all 200 entries. Thank you!"; St_stop]).
Proof. vm_compute. reflexivity. Qed.

(** The pull fails on a fresh deployment: a warning, then the run goes on
    with a freshly built table and shows an item. *)
Example scenario_pull_fails :
  (render ["41"; "42"] (Some (OtherError "token")) 0 "carol" w_fresh).1
  = Return (Showing "41").
Proof. vm_compute. reflexivity. Qed.

(** A stored file without an ID column makes the load raise. *)
Example scenario_no_ID_column :
  load_annotations ["41"] (Some (Frame ["GPT"] [ {[ "GPT" := Num 1 ]} ]))
  = Raise (KeyError "ID").
Proof. vm_compute. reflexivity. Qed.

(* ===================================================================== *)
(** ** More about saving                                                  *)
(* ===================================================================== *)

Section Save.
Import Pandas.

Lemma drop_duplicates_from_sublist (seen : list cell) (rs : list row) :
  drop_duplicates_from seen rs `sublist_of` rs.
Proof.
  revert seen. induction rs as [|r rs IH]; intros seen; simpl; [done|].
  case_bool_decide; [apply sublist_cons | apply sublist_skip]; apply IH.
Qed.

Lemma drop_duplicates_from_fresh (seen : list cell) (rs : list row) (r : row) :
  r ∈ drop_duplicates_from seen rs → r !! "ID" ∉ seen.
Proof.
  revert seen. induction rs as [|r0 rs IH]; intros seen; simpl.
  { by intros ?%elem_of_nil. }
  case_bool_decide as Hseen; [apply IH|].
  intros [->|Hr]%elem_of_cons; [done|].
  apply IH in Hr. rewrite not_elem_of_cons in Hr. tauto.
Qed.

Lemma drop_duplicates_from_NoDup (seen : list cell) (rs : list row) :
  NoDup ((λ r : row, r !! "ID") <$> drop_duplicates_from seen rs).
Proof.
  revert seen. induction rs as [|r rs IH]; intros seen; simpl.
  { constructor. }
  case_bool_decide as Hseen; [apply IH|].
  rewrite fmap_cons. apply NoDup_cons. split; [|apply IH].
  intros (r' & Heq & Hr')%list_elem_of_fmap.
  apply drop_duplicates_from_fresh in Hr'. apply Hr'. rewrite <- Heq. left.
Qed.

(** Every ID of the input is still there, unless it was seen before. *)
Lemma drop_duplicates_from_keeps (seen : list cell) (rs : list row) (r : row) :
  r ∈ rs →
  r !! "ID" ∈ seen
  ∨ r !! "ID" ∈ (λ r : row, r !! "ID") <$> drop_duplicates_from seen rs.
Proof.
  revert seen. induction rs as [|r0 rs IH]; intros seen; simpl.
  { by intros ?%elem_of_nil. }
  intros [->|Hr]%elem_of_cons.
  - case_bool_decide as Hseen; [by left|]. right. rewrite fmap_cons. left.
  - case_bool_decide as Hseen; [by apply IH|].
    destruct (IH (r0 !! "ID" :: seen) Hr) as [[->|Hs]%elem_of_cons|Hk].
    + right. rewrite fmap_cons. left.
    + by left.
    + right. rewrite fmap_cons. by right.
Qed.

(** Rows with pairwise distinct IDs are all kept. *)
Lemma drop_duplicates_from_id (seen : list cell) (rs : list row) :
  NoDup ((λ r : row, r !! "ID") <$> rs) →
  (∀ r, r ∈ rs → r !! "ID" ∉ seen) →
  drop_duplicates_from seen rs = rs.
Proof.
  revert seen. induction rs as [|r rs IH]; intros seen Hnd Hseen; simpl; [done|].
  rewrite fmap_cons in Hnd. apply NoDup_cons in Hnd as [Hr Hnd].
  rewrite bool_decide_eq_false_2 by (apply Hseen; left).
  f_equal. apply IH; [done|]. intros r' Hr'. rewrite not_elem_of_cons. split.
  - intros Heq. apply Hr. rewrite <- Heq. by apply list_elem_of_fmap_2.
  - apply Hseen. by right.
Qed.

Lemma coerce_ID_idemp (r : row) : coerce_ID (coerce_ID r) = coerce_ID r.
Proof.
  unfold coerce_ID. rewrite lookup_insert_eq. cbn. apply insert_insert_eq.
Qed.

Lemma saved_ID_texts (t : frame) : ID_texts (saved t).
Proof.
  unfold ID_texts. cbn [saved rows]. apply Forall_forall. intros r Hr.
  apply drop_duplicates_from_elem, list_elem_of_fmap in Hr as (r0 & -> & _).
  eexists. unfold coerce_ID. apply lookup_insert_eq.
Qed.

End Save.

(** X1.  [save_annotations] raises [KeyError] for a table without an ID
    column and otherwise writes a table with the same header in which
    every ID is a text and no ID occurs twice.  The rows written are rows
    of the table (with the ID coerced), in their order, and every id of
    the table is still the id of a row. *)
Theorem save_annotations_distinct_ids (t : frame) :
  ("ID" ∉ columns t → save_annotations t = Raise (KeyError "ID"))
  ∧ ("ID" ∈ columns t →
     ∃ out, save_annotations t = Return out
       ∧ columns out = columns t
       ∧ ID_texts out
       ∧ NoDup (ID_column out)
       ∧ rows out `sublist_of` (Pandas.coerce_ID <$> rows t)
       ∧ ∀ i, i ∈ ID_of <$> rows t ↔ i ∈ ID_of <$> rows out).
Proof.
  split.
  { intros Hcol. unfold save_annotations. by rewrite astype_str_ID_Raise. }
  intros Hcol. exists (saved t).
  split; [by apply save_annotations_Return|]. split; [done|].
  split; [apply saved_ID_texts|].
  split; [apply drop_duplicates_from_NoDup|].
  split; [apply drop_duplicates_from_sublist|].
  intros i. cbn [saved rows]. split.
  - intros (r & -> & Hr)%list_elem_of_fmap.
    assert (Pandas.coerce_ID r ∈ Pandas.coerce_ID <$> rows t) as Hc
      by by apply list_elem_of_fmap_2.
    destruct (drop_duplicates_from_keeps [] _ _ Hc) as [Hs|Hk];
      [by apply elem_of_nil in Hs|].
    apply list_elem_of_fmap in Hk as (r' & Heq & Hr').
    apply list_elem_of_fmap. exists r'. split; [|done].
    unfold ID_of. rewrite <- Heq. fold (ID_of (Pandas.coerce_ID r)).
    by rewrite ID_of_coerce_ID.
  - intros (r' & -> & Hr')%list_elem_of_fmap.
    apply drop_duplicates_from_elem, list_elem_of_fmap in Hr'
      as (r & -> & Hr).
    rewrite ID_of_coerce_ID. by apply list_elem_of_fmap_2.
Qed.

(** X2.  Saving is idempotent: saving what [save_annotations] wrote writes
    the same table again. *)
Theorem save_annotations_idempotent (t out : frame) :
  save_annotations t = Return out → save_annotations out = Return out.
Proof.
  intros Hsave.
  destruct (decide ("ID" ∈ columns t)) as [Hcol|Hcol].
  2: { unfold save_annotations in Hsave.
       by rewrite astype_str_ID_Raise in Hsave. }
  rewrite save_annotations_Return in Hsave by done. injection Hsave as <-.
  rewrite save_annotations_Return by done. f_equal.
  unfold saved. cbn [columns rows]. f_equal.
  set (rs := Pandas.drop_duplicates_from [] (Pandas.coerce_ID <$> rows t)).
  assert (Pandas.coerce_ID <$> rs = rs) as ->.
  { etrans; [|apply list_fmap_id]. apply list_fmap_ext.
    intros n r Hr%list_elem_of_lookup_2.
    apply drop_duplicates_from_elem, list_elem_of_fmap in Hr as (r0 & -> & _).
    apply coerce_ID_idemp. }
  apply drop_duplicates_from_id; [apply drop_duplicates_from_NoDup|].
  intros r _. apply not_elem_of_nil.
Qed.

Lemma save_annotations_idempotent_witness :
  save_annotations t0 = Return (saved t0)
  ∧ save_annotations (saved t0) = Return (saved t0).
Proof.
  assert (save_annotations t0 = Return (saved t0)) as Hsave.
  { vm_compute. reflexivity. }
  split; [exact Hsave|].
  exact (save_annotations_idempotent t0 (saved t0) Hsave).
Defined.

(* ===================================================================== *)
(** ** More about loading                                                 *)
(* ===================================================================== *)





Lemma reconcile_columns_shape (cols : list string) :
  ∃ rest, reconcile_columns cols = "ID" :: rest ∧ "ID" ∉ rest.
Proof.
  unfold reconcile_columns.
  assert ("ID" ∉ filter (λ c, c ≠ "ID") cols) as Hfilter.
  { rewrite list_elem_of_filter. tauto. }
  case_bool_decide; eexists; (split; [reflexivity|]); [done|].
  rewrite not_elem_of_app. split; [done|].
  by intros [?|?%elem_of_nil]%elem_of_cons.
Qed.

Lemma reconcile_columns_elem (cols : list string) (c : string) :
  c ∈ reconcile_columns cols ↔ c = "ID" ∨ c = "GPT" ∨ c ∈ cols.
Proof.
  split.
  - unfold reconcile_columns. case_bool_decide as Hgpt.
    + intros [->|[_ Hc]%list_elem_of_filter]%elem_of_cons; auto.
    + rewrite elem_of_app.
      intros [[->|[_ Hc]%list_elem_of_filter]%elem_of_cons
             |[->|?%elem_of_nil]%elem_of_cons]; auto. done.
  - intros [->|[->|Hc]].
    + apply reconcile_columns_ID.
    + apply reconcile_columns_GPT.
    + by apply reconcile_columns_incl.
Qed.

Lemma filter_filter_users (cols : list string) :
  filter (λ c, c ≠ "ID" ∧ c ≠ "GPT") (reconcile_columns cols)
  = filter (λ c, c ≠ "ID" ∧ c ≠ "GPT") cols.
Proof.
  assert (filter (λ c, c ≠ "ID" ∧ c ≠ "GPT")
            ("ID" :: filter (λ c, c ≠ "ID") cols)
          = filter (λ c, c ≠ "ID" ∧ c ≠ "GPT") cols) as Hmerged.
  { rewrite filter_cons, decide_False by tauto.
    rewrite list_filter_filter. apply list_filter_iff. intros c. tauto. }
  unfold reconcile_columns. case_bool_decide; [done|].
  rewrite filter_app, Hmerged.
  rewrite filter_cons, decide_False by tauto. apply app_nil_r.
Qed.

(** X4.  The header of a loaded table: ID comes first and occurs once,
    GPT is always a column, no column of the stored file is lost, nothing
    but ID and GPT is added, and the user columns keep the order they
    have in the file. *)
Theorem load_annotations_header (ids : list string) (csv : option frame)
    (t : frame) :
  load_annotations ids csv = Return t →
  (∃ rest, columns t = "ID" :: rest ∧ "ID" ∉ rest)
  ∧ "GPT" ∈ columns t
  ∧ (∀ c, c ∈ columns t ↔
          c = "ID" ∨ c = "GPT" ∨ c ∈ columns (stored ids csv))
  ∧ filter (λ c, c ≠ "ID" ∧ c ≠ "GPT") (columns t)
    = filter (λ c, c ≠ "ID" ∧ c ≠ "GPT") (columns (stored ids csv)).
Proof.
  intros [_ ->]%load_annotations_inv. cbn [reconcile columns].
  split; [apply reconcile_columns_shape|].
  split; [apply reconcile_columns_GPT|].
  split; [apply reconcile_columns_elem | apply filter_filter_users].
Qed.

Lemma load_annotations_header_witness :
  load_annotations ["a"; "b"; "c"] (Some t0)
  = Return (reconcile ["a"; "b"; "c"] t0)
  ∧ filter (λ c, c ≠ "ID" ∧ c ≠ "GPT")
      (columns (reconcile ["a"; "b"; "c"] t0))
    = filter (λ c, c ≠ "ID" ∧ c ≠ "GPT") (columns t0).
Proof.
  assert (load_annotations ["a"; "b"; "c"] (Some t0)
          = Return (reconcile ["a"; "b"; "c"] t0)) as Hload.
  { vm_compute. reflexivity. }
  split; [exact Hload|].
  exact (proj2 (proj2 (proj2
           (load_annotations_header ["a"; "b"; "c"] (Some t0) _ Hload)))).
Defined.

Lemma NoDup_Str_inv (ids : list string) :
  NoDup ((λ i, Some (Str i)) <$> ids) → NoDup ids.
Proof. apply NoDup_fmap_1. Qed.

(** X5.  Sample ids that repeat give rows that repeat: the table has one
    row per entry of the sample list, rows at entries with the same id
    are equal, and its ID column is free of duplicates exactly when the
    sample ids are. *)
Theorem load_annotations_repeated_ids (ids : list string)
    (csv : option frame) (t : frame) :
  load_annotations ids csv = Return t →
  length (rows t) = length ids
  ∧ (NoDup (ID_column t) ↔ NoDup ids)
  ∧ ∀ n m i, ids !! n = Some i → ids !! m = Some i →
             rows t !! n = rows t !! m ∧ is_Some (rows t !! n).
Proof.
  intros [_ ->]%load_annotations_inv.
  split; [unfold reconcile; cbn [rows]; by rewrite length_fmap|].
  split.
  { rewrite reconcile_ID_column. split; [apply NoDup_Str_inv | apply NoDup_Str]. }
  intros n m i Hn Hm.
  rewrite (reconcile_lookup _ _ n i), (reconcile_lookup _ _ m i) by done.
  split; [done | by eexists].
Qed.

Lemma load_annotations_repeated_ids_witness :
  load_annotations ["b"; "b"] (Some t0) = Return (reconcile ["b"; "b"] t0)
  ∧ length (rows (reconcile ["b"; "b"] t0)) = 2
  ∧ ¬ NoDup (ID_column (reconcile ["b"; "b"] t0)).
Proof.
  assert (load_annotations ["b"; "b"] (Some t0)
          = Return (reconcile ["b"; "b"] t0)) as Hload.
  { vm_compute. reflexivity. }
  destruct (load_annotations_repeated_ids ["b"; "b"] (Some t0) _ Hload)
    as (Hlen & Hnd & _).
  split; [exact Hload|]. split; [exact Hlen|].
  intros Hno. apply Hnd in Hno. apply NoDup_cons in Hno as [Hb _].
  apply Hb. left.
Defined.

Lemma load_annotations_reconciled (ids : list string) (csv : option frame)
    (t : frame) :
  NoDup ids → load_annotations ids csv = Return t → reconciled ids t.
Proof.
  intros Hnd Hload. split; [done|].
  pose proof (load_annotations_ID_column _ _ _ Hload) as Hcol.
  pose proof (load_annotations_GPT_numeric _ _ _ Hload) as Hnum.
  apply load_annotations_inv in Hload as [_ ->]. cbn [reconcile columns].
  destruct (reconcile_columns_shape (columns (stored ids csv)))
    as (rest & Hcols & Hrest).
  split; [by rewrite Hcols|].
  split; [apply reconcile_columns_GPT | done].
Qed.

(** X6.  What [load_annotations] returns for sample ids without
    repetition is a reconciled table, and it is stable: saving it and
    loading again returns the same table. *)
Theorem loaded_table_is_stable (ids : list string) (csv : option frame)
    (t : frame) :
  NoDup ids →
  load_annotations ids csv = Return t →
  reconciled ids t
  ∧ ∃ out, save_annotations t = Return out
         ∧ load_annotations ids (Some out) = Return t.
Proof.
  intros Hnd Hload.
  assert (reconciled ids t) as Hrec by by eapply load_annotations_reconciled.
  split; [done|]. exists (saved t).
  pose proof (load_annotations_columns_ID _ _ _ Hload) as HID.
  split; [by apply save_annotations_Return|].
  rewrite load_saved.
  - by rewrite reconcile_reconciled.
  - split; [done|].
    apply numeric_GPT_ok. by eapply load_annotations_GPT_numeric.
Qed.

Lemma loaded_table_is_stable_witness :
  NoDup ["a"; "b"; "c"]
  ∧ load_annotations ["a"; "b"; "c"] (Some t0)
    = Return (reconcile ["a"; "b"; "c"] t0)
  ∧ reconciled ["a"; "b"; "c"] (reconcile ["a"; "b"; "c"] t0).
Proof.
  assert (NoDup ["a"; "b"; "c"]) as Hnd.
  { apply (bool_decide_unpack _). vm_compute. exact I. }
  assert (load_annotations ["a"; "b"; "c"] (Some t0)
          = Return (reconcile ["a"; "b"; "c"] t0)) as Hload.
  { vm_compute. reflexivity. }
  split; [exact Hnd|]. split; [exact Hload|].
  exact (proj1 (loaded_table_is_stable ["a"; "b"; "c"] (Some t0) _ Hnd Hload)).
Defined.

(* ===================================================================== *)
(** ** More about the selector                                            *)
(* ===================================================================== *)

Lemma assign_column_ensure (u : string) (t : frame) :
  u ∉ columns t → Pandas.assign_column u None t = ensure_column u t.
Proof. intros Hu. unfold ensure_column. by rewrite bool_decide_eq_false_2. Qed.

Lemma load_for_user_run (ids : list string) (u : string) (w : world) (t : frame) :
  load_annotations ids (csv w) = Return t →
  load_for_user ids u w =
  if bool_decide (u ∈ columns t)
  then (Return t, with_events w [Call_load_annotations])
  else (Return (reconcile ids (Pandas.assign_column u None t)),
        World (Some (saved (Pandas.assign_column u None t)))
              (dropbox w) (current_id w)
              (events w ++ [Call_load_annotations; Call_save_annotations;
                            Call_load_annotations])).
Proof.
  intros Hload. unfold load_for_user.
  erewrite prog_bind_Return by (rewrite load_run, Hload; reflexivity).
  case_bool_decide as Hu; [done|].
  pose proof (load_annotations_columns_ID _ _ _ Hload) as HID.
  rewrite assign_column_ensure by done.
  erewrite prog_bind_Return
    by (apply save_run; by apply ensure_column_incl).
  rewrite load_run. cbn [csv]. rewrite load_saved.
  - unfold with_events. cbn. by rewrite <- !app_assoc.
  - split; [by apply ensure_column_incl|].
    apply ensure_column_GPT_ok, numeric_GPT_ok.
    by eapply load_annotations_GPT_numeric.
Qed.

Lemma load_for_user_Raise (ids : list string) (u : string) (w : world) (e : exn) :
  load_annotations ids (csv w) = Raise e →
  load_for_user ids u w = (Raise e, with_events w [Call_load_annotations]).
Proof.
  intros Hload. unfold load_for_user.
  by erewrite prog_bind_Raise by (rewrite load_run, Hload; reflexivity).
Qed.

Lemma cell_at_assign_column (u id c : string) (t : frame) :
  "ID" ∈ columns t → u ∉ columns t → c ∈ columns t →
  cell_at (Pandas.assign_column u None t) id c = cell_at t id c.
Proof.
  intros HID Hu Hc. rewrite assign_column_ensure by done.
  assert (c ≠ u) as Hne by (by intros ->).
  unfold cell_at. rewrite !bool_decide_eq_true_2
    by (done || by apply ensure_column_incl).
  rewrite ensure_column_filter, bool_decide_eq_false_2 by done.
  destruct (filter (Pandas.has_ID id) (rows t)) as [|r rs]; [done|]. cbn.
  by rewrite lookup_delete_ne.
Qed.

Lemma cell_at_unknown_id (ids : list string) (t : frame) (id c : string) :
  ID_column t = (λ i, Some (Str i)) <$> ids → id ∉ ids →
  cell_at t id c = None.
Proof.
  intros Hcol Hid. unfold cell_at. case_bool_decide; [|done].
  assert (filter (Pandas.has_ID id) (rows t) = []) as ->; [|done].
  apply filter_has_ID_nil. rewrite Hcol.
  intros (i & [= ->] & Hi)%list_elem_of_fmap. done.
Qed.

(** X7.  The user's column (lines 205-212).  After [load_for_user] the
    table has a column for the user, and it is the table the file now
    loads to.  When the column was there already nothing is saved and
    the file is untouched.  On a first visit the table with the new
    column is saved once (and not pushed): every cell of the new column
    is unset and the labels of the other users are what they were. *)
Theorem load_for_user_column (ids : list string) (u : string) (w : world)
    (t : frame) :
  load_annotations ids (csv w) = Return t →
  ∃ df w', load_for_user ids u w = (Return df, w')
    ∧ u ∈ columns df
    ∧ load_annotations ids (csv w') = Return df
    ∧ dropbox w' = dropbox w
    ∧ current_id w' = current_id w
    ∧ (∀ i c, c ∈ columns t → c ≠ "ID" → c ≠ "GPT" →
              cell_at df i c = cell_at t i c)
    ∧ (u ∈ columns t →
       df = t ∧ csv w' = csv w
       ∧ events w' = events w ++ [Call_load_annotations])
    ∧ (u ∉ columns t →
       events w' = events w ++ [Call_load_annotations; Call_save_annotations;
                                Call_load_annotations]
       ∧ ∀ i, cell_at df i u = None).
Proof.
  intros Hload. rewrite (load_for_user_run _ _ _ t) by done.
  pose proof (load_annotations_columns_ID _ _ _ Hload) as HID.
  pose proof (load_annotations_ID_texts _ _ _ Hload) as Htexts.
  case_bool_decide as Hu.
  { eexists _, _. split; [reflexivity|]. cbn.
    split; [done|]. split; [done|]. split; [done|]. split; [done|].
    split; [done|]. split; done. }
  set (t' := Pandas.assign_column u None t).
  assert (readable t') as Hreadable.
  { subst t'. rewrite assign_column_ensure by done.
    split; [by apply ensure_column_incl|].
    apply ensure_column_GPT_ok, numeric_GPT_ok.
    by eapply load_annotations_GPT_numeric. }
  assert (ID_texts t') as Htexts'.
  { subst t'. rewrite assign_column_ensure by done.
    by apply ensure_column_ID_texts. }
  assert (u ∈ columns t') as Hu'.
  { subst t'. rewrite assign_column_ensure by done.
    apply ensure_column_columns. }
  assert (u ≠ "ID") as Hne1 by (by intros ->).
  assert (u ≠ "GPT") as Hne2.
  { intros ->. apply Hu. apply load_annotations_inv in Hload as [_ ->].
    apply reconcile_columns_GPT. }
  assert (∀ i c, c ∈ columns t' → c ≠ "ID" → c ≠ "GPT" →
                 cell_at (reconcile ids t') i c = cell_at t' i c) as Hcell.
  { intros i c Hc Hc1 Hc2. destruct (decide (i ∈ ids)) as [Hi|Hi].
    - by apply cell_at_reconcile.
    - rewrite (cell_at_unknown_id ids (reconcile ids t') i c)
        by (apply reconcile_ID_column || done).
      symmetry. apply (cell_at_unknown_id ids); [|done].
      subst t'. rewrite assign_column_ensure by done.
      rewrite ensure_column_ID_column by done.
      by eapply load_annotations_ID_column. }
  eexists _, _. split; [reflexivity|]. cbn [csv dropbox current_id events].
  split; [by apply reconcile_columns_incl|].
  split; [by apply load_saved|]. split; [done|]. split; [done|].
  split.
  { intros i c Hc Hc1 Hc2. rewrite Hcell; try done.
    - by apply cell_at_assign_column.
    - subst t'. rewrite assign_column_ensure by done.
      by apply ensure_column_incl. }
  split; [done|]. intros _. split; [done|].
  intros i. rewrite Hcell by done. subst t'.
  rewrite assign_column_ensure by done.
  rewrite cell_at_ensure_column by done.
  unfold cell_at. by rewrite bool_decide_eq_false_2.
Qed.

Lemma load_for_user_column_witness :
  load_annotations ["a"; "b"; "c"] (csv w0)
  = Return (reconcile ["a"; "b"; "c"] t0)
  ∧ ∃ df w', load_for_user ["a"; "b"; "c"] "bob" w0 = (Return df, w')
           ∧ "bob" ∈ columns df
           ∧ cell_at df "b" "alice" = Some (Num 1)
           ∧ cell_at df "b" "bob" = None.
Proof.
  assert (load_annotations ["a"; "b"; "c"] (csv w0)
          = Return (reconcile ["a"; "b"; "c"] t0)) as Hload.
  { vm_compute. reflexivity. }
  split; [exact Hload|].
  destruct (load_for_user_column ["a"; "b"; "c"] "bob" w0 _ Hload)
    as (df & w' & Hrun & Hcol & _ & _ & _ & Hkeep & _ & Hnew).
  exists df, w'. split; [exact Hrun|]. split; [exact Hcol|]. split.
  - rewrite Hkeep; [vm_compute; reflexivity | | discriminate | discriminate].
    apply (bool_decide_unpack _). vm_compute. exact I.
  - apply Hnew. apply (bool_decide_unpack _). vm_compute. exact I.
Defined.

Lemma remaining_ids_nil (u : string) (df : frame) :
  Forall (λ r : row, is_Some (r !! u)) (rows df) → remaining_ids u df = [].
Proof.
  unfold remaining_ids. induction 1 as [|r rs [x Hr] _ IH]; [done|].
  by rewrite filter_cons, decide_False by (by rewrite Hr).
Qed.

Lemma cell_at_is_Some (t : frame) (id c : string) :
  c ∈ columns t → Forall (λ r : row, is_Some (r !! c)) (rows t) →
  filter (Pandas.has_ID id) (rows t) ≠ [] → is_Some (cell_at t id c).
Proof.
  intros Hc Hall Hfound. unfold cell_at. rewrite bool_decide_eq_true_2 by done.
  destruct (filter (Pandas.has_ID id) (rows t)) as [|r rs] eqn:Hf; [done|].
  cbn. rewrite Forall_forall in Hall. apply Hall.
  assert (r ∈ filter (Pandas.has_ID id) (rows t)) as Hr by (rewrite Hf; left).
  by apply list_elem_of_filter in Hr as [_ Hr].
Qed.

(** X8.  A username that is the name of a data column, ID or GPT, is
    taken for a user who has labelled everything: the selector shows the
    completion message at once, without a draw, and a click under that
    name never writes the file. *)
Theorem reserved_username_is_done (ids : list string) (net : option exn)
    (k : nat) (u cur : string) (b : button) (w : world) (t : frame) :
  load_annotations ids (csv w) = Return t →
  u = "ID" ∨ u = "GPT" →
  remaining_ids u t = []
  ∧ choose_item ids k u t w =
      (Return Completed,
       with_events w
         [St_success "You have labeled all 200 entries. Thank you!"; St_stop])
  ∧ (on_click ids net u cur b w).1 = Return tt
  ∧ csv (on_click ids net u cur b w).2 = csv w
  ∧ dropbox (on_click ids net u cur b w).2 = dropbox w.
Proof.
  intros Hload Hu.
  assert (u ∈ columns t) as Hcol.
  { apply load_annotations_inv in Hload as [_ ->].
    destruct Hu as [-> | ->];
      [apply reconcile_columns_ID | apply reconcile_columns_GPT]. }
  assert (Forall (λ r : row, is_Some (r !! u)) (rows t)) as Hall.
  { destruct Hu as [-> | ->].
    - eapply Forall_impl; [by eapply load_annotations_ID_texts|].
      intros r [i Hi]. by rewrite Hi.
    - eapply Forall_impl; [by eapply load_annotations_GPT_numeric|].
      intros r [z Hz]. by rewrite Hz. }
  pose proof (remaining_ids_nil u t Hall) as Hrem.
  split; [done|].
  split; [by rewrite choose_item_run, bool_decide_eq_true_2, Hrem|].
  unfold on_click. rewrite (update_label_and_rerun_run _ _ _ _ _ _ t) by done.
  destruct (filter (Pandas.has_ID cur) (rows t)) as [|r rs] eqn:Hf; [done|].
  destruct (cell_at_is_Some t cur u Hcol Hall) as [x ->];
    [by rewrite Hf | done].
Qed.

Lemma reserved_username_is_done_witness :
  load_annotations ["a"; "b"; "c"] (csv w0)
  = Return (reconcile ["a"; "b"; "c"] t0)
  ∧ remaining_ids "GPT" (reconcile ["a"; "b"; "c"] t0) = []
  ∧ csv (on_click ["a"; "b"; "c"] None "GPT" "a" Yes w0).2 = csv w0.
Proof.
  assert (load_annotations ["a"; "b"; "c"] (csv w0)
          = Return (reconcile ["a"; "b"; "c"] t0)) as Hload.
  { vm_compute. reflexivity. }
  split; [exact Hload|].
  destruct (reserved_username_is_done
              ["a"; "b"; "c"] None 0 "GPT" "a" Yes w0 _ Hload
              (or_intror eq_refl))
    as (Hrem & _ & _ & Hcsv & _).
  split; [exact Hrem | exact Hcsv].
Defined.

Lemma remaining_ids_sample (ids : list string) (u i : string) (t : frame) :
  ID_column t = (λ i, Some (Str i)) <$> ids →
  i ∈ remaining_ids u t → i ∈ ids.
Proof.
  intros Hcol (r & -> & Hr)%list_elem_of_fmap.
  apply list_elem_of_filter in Hr as [_ Hr].
  assert (r !! "ID" ∈ ID_column t) as Hin.
  { unfold ID_column. by apply (list_elem_of_fmap_2 (λ r : row, r !! "ID")). }
  rewrite Hcol in Hin. apply list_elem_of_fmap in Hin as (j & Hj & Hin).
  unfold ID_of. by rewrite Hj.
Qed.

(** The table [load_for_user] returns has the user's column and is what
    the file loads to afterwards. *)
Lemma load_for_user_loaded (ids : list string) (u : string) (w : world)
    (t : frame) :
  load_annotations ids (csv w) = Return t →
  ∃ df w', load_for_user ids u w = (Return df, w')
    ∧ u ∈ columns df
    ∧ load_annotations ids (csv w') = Return df
    ∧ dropbox w' = dropbox w
    ∧ current_id w' = current_id w
    ∧ ∃ evs, events w' = events w ++ evs.
Proof.
  intros Hload. rewrite (load_for_user_run _ _ _ t) by done.
  pose proof (load_annotations_columns_ID _ _ _ Hload) as HID.
  case_bool_decide as Hu.
  { eexists _, _. split; [reflexivity|]. cbn.
    split; [done|]. split; [done|]. split; [done|]. split; [done|].
    by eexists. }
  eexists _, _. split; [reflexivity|]. cbn [csv dropbox current_id events].
  rewrite assign_column_ensure by done.
  split; [apply reconcile_columns_incl, ensure_column_columns|].
  split; [|split; [done|split; [done|by eexists]]].
  apply load_saved. split; [by apply ensure_column_incl|].
  apply ensure_column_GPT_ok, numeric_GPT_ok.
  by eapply load_annotations_GPT_numeric.
Qed.

(** X9.  What the selector can end in.  [select_item] raises only what
    its first load of the file raises; it never raises [IndexError] nor a
    [KeyError] for the user's column, and it never takes the "No entry
    found" exit: the id it shows is always a sample id. *)
Theorem select_item_outcomes (ids : list string) (k : nat) (u : string)
    (w : world) :
  match (select_item ids k u w).1 with
  | Return Completed => True
  | Return (Showing i) => i ∈ ids
  | Return (NoEntry _) => False
  | Raise e => load_annotations ids (csv w) = Raise e
  end.
Proof.
  unfold select_item.
  destruct (load_annotations ids (csv w)) as [t|e] eqn:Hload.
  2: { by erewrite prog_bind_Raise by by apply load_for_user_Raise. }
  destruct (load_for_user_loaded ids u w t Hload)
    as (df & w' & Hrun & Hu & Hdf & _).
  erewrite prog_bind_Return by exact Hrun.
  pose proof (load_annotations_ID_column _ _ _ Hdf) as Hcol.
  destruct (decide (remaining_ids u df = [])) as [Hrem|Hrem].
  { by rewrite choose_item_run, bool_decide_eq_true_2, Hrem. }
  assert (∀ c w1, c ∈ remaining_ids u df →
                  (show_item ids c w1).1 = Return (Showing c) ∧ c ∈ ids)
    as Hshow.
  { intros c w1 Hc%(remaining_ids_sample ids); [|done].
    unfold show_item. by rewrite bool_decide_eq_true_2. }
  destruct (choose_item_cases ids k u df w' Hu Hrem)
    as [(i & _ & Hi & ->)|(_ & c & Hc & ->)].
  - destruct (Hshow i w' Hi) as [-> ?]. done.
  - destruct (Hshow c (World (csv w') (dropbox w') (Held c)
                         (events w' ++ [Call_random_choice (remaining_ids u df);
                                        Assign_current_id (Held c)])) Hc)
      as [-> ?].
    done.
Qed.

(** X10.  The counters of the progress display (lines 219-234): the
    labelled entries and the remaining ids add up to the number of rows,
    so the labelled count never exceeds the total, and the completion
    test [remaining == 0] holds exactly when [remaining_ids] is empty,
    that is when every row is labelled. *)
Theorem progress_counts (u : string) (df : frame) :
  already_labeled u df + length (remaining_ids u df) = length (rows df)
  ∧ (already_labeled u df ≤ length (rows df))%nat
  ∧ (length (rows df) - already_labeled u df = 0 ↔ remaining_ids u df = [])
  ∧ (already_labeled u df = length (rows df) ↔
     Forall (λ r : row, is_Some (r !! u)) (rows df)).
Proof.
  pose proof (labeled_plus_remaining u df) as Hsum.
  split; [done|]. split; [lia|]. split; [apply remaining_zero|].
  split.
  - intros Hall. assert (remaining_ids u df = []) as Hrem.
    { destruct (remaining_ids u df); [done | cbn in Hsum; lia]. }
    unfold remaining_ids in Hrem. apply fmap_nil_inv in Hrem.
    apply Forall_forall. intros r Hr.
    destruct (r !! u) eqn:Hru; [done|].
    by destruct (filter_nil_not_elem_of _ _ r Hrem Hru).
  - intros Hall. rewrite (remaining_ids_nil u df Hall) in Hsum.
    cbn in Hsum. lia.
Qed.

Lemma ID_of_reconcile_row (cols : list string) (i : string) (found : option row) :
  ID_of (reconcile_row cols i found) = i.
Proof. unfold ID_of. by rewrite reconcile_row_ID. Qed.

Lemma remaining_ids_reconcile (ids : list string) (s : frame) (u : string) :
  remaining_ids u (reconcile ids s)
  = filter (λ i, reconcile_row (columns s) i (first_with_ID i (rows s)) !! u
                 = None) ids.
Proof.
  unfold remaining_ids, reconcile. cbn [rows].
  induction ids as [|i ids IH]; [done|].
  rewrite fmap_cons, !filter_cons.
  destruct (decide (reconcile_row (columns s) i (first_with_ID i (rows s)) !! u
                    = None)) as [Hi|Hi].
  - by rewrite fmap_cons, ID_of_reconcile_row, IH.
  - exact IH.
Qed.

Lemma cell_at_reconcile_row (ids : list string) (s : frame) (i u : string) :
  i ∈ ids → u ∈ reconcile_columns (columns s) →
  cell_at (reconcile ids s) i u
  = reconcile_row (columns s) i (first_with_ID i (rows s)) !! u.
Proof.
  intros Hi Hu. unfold cell_at. cbn [reconcile columns rows].
  rewrite bool_decide_eq_true_2 by done.
  rewrite (filter_has_ID_fmap _ ids i) by (intros; apply reconcile_row_ID).
  destruct (filter (λ j, j = i) ids) as [|j rest] eqn:Hf.
  { exfalso. eapply (filter_nil_not_elem_of _ _ i); done. }
  assert (j ∈ filter (λ j, j = i) ids) as Hj by (rewrite Hf; left).
  by apply list_elem_of_filter in Hj as [-> _].
Qed.

Lemma remaining_ids_elem (ids : list string) (csv : option frame) (t : frame)
    (u i : string) :
  load_annotations ids csv = Return t → u ∈ columns t →
  i ∈ remaining_ids u t ↔ i ∈ ids ∧ cell_at t i u = None.
Proof.
  intros [_ ->]%load_annotations_inv Hu. cbn [reconcile columns] in Hu.
  rewrite remaining_ids_reconcile, list_elem_of_filter. split.
  - intros [Hcell Hi]. split; [done|]. by rewrite cell_at_reconcile_row.
  - intros [Hi Hcell]. split; [|done].
    by rewrite <- (cell_at_reconcile_row ids).
Qed.

Lemma remaining_ids_NoDup (ids : list string) (csv : option frame) (t : frame)
    (u : string) :
  NoDup ids → load_annotations ids csv = Return t → NoDup (remaining_ids u t).
Proof.
  intros Hnd [_ ->]%load_annotations_inv.
  rewrite remaining_ids_reconcile. by apply NoDup_filter.
Qed.

(** X11.  The ids offered to a user.  On a loaded table that has the
    user's column, [remaining_ids] holds exactly the sample ids whose cell
    for the user is unset, in the order of the sample list, and without
    repetition when the sample ids have none. *)
Theorem remaining_ids_are_unlabelled (ids : list string) (csv : option frame)
    (t : frame) (u : string) :
  load_annotations ids csv = Return t →
  u ∈ columns t →
  (∀ i, i ∈ remaining_ids u t ↔ i ∈ ids ∧ cell_at t i u = None)
  ∧ remaining_ids u t `sublist_of` ids
  ∧ (NoDup ids → NoDup (remaining_ids u t)).
Proof.
  intros Hload Hu.
  split; [intros i; by eapply remaining_ids_elem|].
  split; [|intros Hnd; by eapply remaining_ids_NoDup].
  apply load_annotations_inv in Hload as [_ ->].
  rewrite remaining_ids_reconcile. apply sublist_filter.
Qed.

Lemma remaining_ids_are_unlabelled_witness :
  load_annotations ["a"; "b"; "c"] (Some t0)
  = Return (reconcile ["a"; "b"; "c"] t0)
  ∧ "alice" ∈ columns (reconcile ["a"; "b"; "c"] t0)
  ∧ remaining_ids "alice" (reconcile ["a"; "b"; "c"] t0)
    `sublist_of` ["a"; "b"; "c"]
  ∧ "b" ∉ remaining_ids "alice" (reconcile ["a"; "b"; "c"] t0).
Proof.
  assert (load_annotations ["a"; "b"; "c"] (Some t0)
          = Return (reconcile ["a"; "b"; "c"] t0)) as Hload.
  { vm_compute. reflexivity. }
  assert ("alice" ∈ columns (reconcile ["a"; "b"; "c"] t0)) as Hu.
  { apply (bool_decide_unpack _). vm_compute. exact I. }
  split; [exact Hload|]. split; [exact Hu|].
  destruct (remaining_ids_are_unlabelled
              ["a"; "b"; "c"] (Some t0) _ "alice" Hload Hu)
    as (Hiff & Hsub & _).
  split; [exact Hsub|].
  intros Hb. apply Hiff in Hb as [_ Hb]. vm_compute in Hb. discriminate Hb.
Defined.

(* ===================================================================== *)
(** ** More about the click                                               *)
(* ===================================================================== *)

Lemma set_cells_filter_other (id id' u : string) (v : Z) (t : frame) :
  u ≠ "ID" →
  filter (Pandas.has_ID id') (rows (set_cells id u v t))
  = (λ r : row, if decide (Pandas.has_ID id r) then <[u := Num v]> r else r)
    <$> filter (Pandas.has_ID id') (rows t).
Proof.
  intros Hne. cbn [set_cells rows].
  induction (rows t) as [|r rs IH]; [done|].
  rewrite fmap_cons, !filter_cons, IH.
  assert (Pandas.has_ID id'
            (if decide (Pandas.has_ID id r) then <[u := Num v]> r else r)
          ↔ Pandas.has_ID id' r) as Hiff.
  { destruct (decide (Pandas.has_ID id r)); [|done].
    unfold Pandas.has_ID. by rewrite lookup_insert_ne. }
  destruct (decide (Pandas.has_ID id' r)) as [Hr|Hr].
  - by rewrite decide_True by by apply Hiff.
  - by rewrite decide_False by by rewrite Hiff.
Qed.

Lemma cell_at_set_cells_other (id id' u c : string) (v : Z) (t : frame) :
  u ≠ "ID" → id' ≠ id ∨ c ≠ u →
  cell_at (set_cells id u v t) id' c = cell_at t id' c.
Proof.
  intros Hne Hother. unfold cell_at. cbn [set_cells columns].
  case_bool_decide; [|done]. rewrite set_cells_filter_other by done.
  destruct (filter (Pandas.has_ID id') (rows t)) as [|r rs] eqn:Hf; [done|].
  cbn. destruct (decide (Pandas.has_ID id r)) as [Hr|Hr]; [|done].
  assert (Pandas.has_ID id' r) as Hr'.
  { assert (r ∈ filter (Pandas.has_ID id') (rows t)) as Hin
      by (rewrite Hf; left).
    by apply list_elem_of_filter in Hin as [Hin _]. }
  unfold Pandas.has_ID in Hr, Hr'. rewrite Hr in Hr'. injection Hr' as <-.
  destruct Hother as [?|?]; [done|]. by rewrite lookup_insert_ne.
Qed.

Lemma cell_at_ensure_column_other (u id c : string) (t : frame) :
  "ID" ∈ columns t → c ∈ columns t →
  cell_at (ensure_column u t) id c = cell_at t id c.
Proof.
  intros HID Hc. destruct (decide (u ∈ columns t)) as [Hu|Hu].
  - by rewrite ensure_column_id.
  - rewrite <- assign_column_ensure by done. by apply cell_at_assign_column.
Qed.

Lemma set_label_needs_ID (t : frame) (id u : string) (v : Z)
    (t1 : frame) (changed : bool) :
  set_label t id u v = Return (Some (t1, changed)) → "ID" ∈ columns t.
Proof.
  intros Hset. destruct (decide ("ID" ∈ columns t)) as [HID|HID]; [done|].
  exfalso. unfold set_label, Pandas.require_column in Hset.
  destruct (decide (u = "ID")) as [->|Hne].
  - unfold ensure_column in Hset.
    rewrite (bool_decide_eq_false_2 ("ID" ∈ columns t)) in Hset by done.
    rewrite bool_decide_eq_true_2 in Hset.
    2: { unfold Pandas.assign_column, Pandas.set_header. cbn [columns].
         rewrite bool_decide_eq_false_2 by done. apply elem_of_app.
         right. left. }
    cbn [mbind result_bind Pandas.assign_column rows] in Hset.
    assert (∀ rs : list row,
              filter (Pandas.has_ID id) (delete "ID" <$> rs) = []) as Hnil.
    { induction rs as [|r rs IH]; [done|].
      rewrite fmap_cons, filter_cons, IH. rewrite decide_False; [done|].
      unfold Pandas.has_ID. by rewrite lookup_delete_eq. }
    by rewrite Hnil in Hset.
  - rewrite bool_decide_eq_false_2 in Hset; [done|].
    destruct (decide (u ∈ columns t)) as [Hu|Hu].
    + by rewrite ensure_column_id.
    + rewrite <- assign_column_ensure by done.
      unfold Pandas.assign_column, Pandas.set_header. cbn [columns].
      rewrite bool_decide_eq_false_2 by done. rewrite elem_of_app.
      intros [?|[?|?%elem_of_nil]%elem_of_cons]; done.
Qed.

(** X13.  [set_label] touches one cell.  Whenever it finds the row, the
    table it returns has the header of the input with the user's column
    added when it was missing, the same ID column and number of rows,
    and every cell of the input other than the user's cell for that id
    holds what it held. *)
Theorem set_label_touches_one_cell (t : frame) (id u : string) (v : Z)
    (t1 : frame) (changed : bool) :
  set_label t id u v = Return (Some (t1, changed)) →
  "ID" ∈ columns t
  ∧ columns t1 = Pandas.set_header u (columns t)
  ∧ ID_column t1 = ID_column t
  ∧ length (rows t1) = length (rows t)
  ∧ ∀ id' c, c ∈ columns t → id' ≠ id ∨ c ≠ u →
             cell_at t1 id' c = cell_at t id' c.
Proof.
  intros Hset. pose proof (set_label_needs_ID _ _ _ _ _ _ Hset) as HID.
  split; [done|]. rewrite set_label_run in Hset by done.
  assert (columns (ensure_column u t) = Pandas.set_header u (columns t))
    as Hcols.
  { destruct (decide (u ∈ columns t)) as [Hu|Hu].
    - rewrite ensure_column_id by done. unfold Pandas.set_header.
      by rewrite bool_decide_eq_true_2.
    - by rewrite <- assign_column_ensure. }
  assert (length (rows (ensure_column u t)) = length (rows t)) as Hlen.
  { destruct (decide (u ∈ columns t)) as [Hu|Hu].
    - by rewrite ensure_column_id.
    - rewrite <- assign_column_ensure by done.
      cbn [Pandas.assign_column rows]. apply length_fmap. }
  destruct (filter (Pandas.has_ID id) (rows t)) as [|r rs] eqn:Hf; [done|].
  destruct (cell_at t id u) as [x|] eqn:Hcell; injection Hset as <- <-.
  - split; [done|]. split; [by apply ensure_column_ID_column|].
    split; [done|]. intros id' c Hc _.
    by apply cell_at_ensure_column_other.
  - assert (u ≠ "ID") as Hne.
    { apply (cell_at_None_not_ID t id); [done | by rewrite Hf | done]. }
    split; [done|].
    split; [by rewrite set_cells_ID_column, ensure_column_ID_column|].
    split; [cbn [set_cells rows]; by rewrite length_fmap|].
    intros id' c Hc Hother.
    rewrite cell_at_set_cells_other by done.
    by apply cell_at_ensure_column_other.
Qed.

Lemma set_label_touches_one_cell_witness :
  set_label t0 "a" "alice" 1
  = Return (Some (set_cells "a" "alice" 1 t0, true))
  ∧ cell_at (set_cells "a" "alice" 1 t0) "b" "alice" = cell_at t0 "b" "alice"
  ∧ cell_at (set_cells "a" "alice" 1 t0) "b" "alice" = Some (Num 1).
Proof.
  assert (set_label t0 "a" "alice" 1
          = Return (Some (set_cells "a" "alice" 1 t0, true))) as Hset.
  { vm_compute. reflexivity. }
  split; [exact Hset|].
  destruct (set_label_touches_one_cell t0 "a" "alice" 1 _ _ Hset)
    as (_ & _ & _ & _ & Hkeep).
  assert (cell_at (set_cells "a" "alice" 1 t0) "b" "alice"
          = cell_at t0 "b" "alice") as Hb.
  { apply Hkeep; [|left; discriminate].
    apply (bool_decide_unpack _). vm_compute. exact I. }
  split; [exact Hb|]. rewrite Hb. vm_compute. reflexivity.
Defined.

Lemma unset_cell_not_GPT (ids : list string) (csv : option frame) (t : frame)
    (cur u : string) :
  load_annotations ids csv = Return t →
  filter (Pandas.has_ID cur) (rows t) ≠ [] →
  cell_at t cur u = None → u ≠ "GPT".
Proof.
  intros Hload Hfound Hcell ->. unfold cell_at in Hcell.
  rewrite bool_decide_eq_true_2 in Hcell.
  2: { apply load_annotations_inv in Hload as [_ ->].
       apply reconcile_columns_GPT. }
  destruct (filter (Pandas.has_ID cur) (rows t)) as [|r rs] eqn:Hf; [done|].
  assert (r ∈ rows t) as Hr.
  { assert (r ∈ filter (Pandas.has_ID cur) (rows t)) as Hr
      by (rewrite Hf; left).
    by apply list_elem_of_filter in Hr as [_ Hr]. }
  pose proof (load_annotations_GPT_numeric _ _ _ Hload) as Hnum.
  rewrite Forall_forall in Hnum. destruct (Hnum r Hr) as [z Hz].
  cbn in Hcell. congruence.
Qed.

Lemma click_write_run (ids : list string) (net : option exn) (u cur : string)
    (b : button) (w : world) (t : frame) :
  load_annotations ids (csv w) = Return t →
  filter (Pandas.has_ID cur) (rows t) ≠ [] →
  cell_at t cur u = None →
  on_click ids net u cur b w =
  (Return tt,
   let t' := set_cells cur u (label_of b) (ensure_column u t) in
   World (Some (saved t'))
         (match net with None => Some (saved t') | Some _ => dropbox w end)
         PyNone
         (events w
          ++ [Call_load_annotations; Assign_label cur u (label_of b);
              Call_save_annotations]
          ++ [Call_upload_to_dropbox; Call_files_upload]
          ++ match net with
             | Some e => [St_warning ("Could not upload CSV to Dropbox: "
                                      +:+ exn_message e)]
             | None => []
             end
          ++ [Assign_current_id PyNone; St_rerun])).
Proof.
  intros Hload Hfound Hcell. unfold on_click.
  rewrite (update_label_and_rerun_run _ _ _ _ _ _ t) by done.
  destruct (filter (Pandas.has_ID cur) (rows t)); [done|].
  rewrite Hcell. cbv zeta. rewrite upload_to_dropbox_run.
  cbn [csv dropbox current_id events snd].
  destruct net as [e|]; cbn [with_events csv dropbox current_id events];
    by rewrite <- !app_assoc.
Qed.

Lemma reconciled_set_cells (ids : list string) (id u : string) (v : Z)
    (t : frame) :
  u ≠ "ID" → u ≠ "GPT" → reconciled ids t →
  reconciled ids (set_cells id u v t).
Proof.
  intros Hne1 Hne2 (Hnd & Hhead & HGPT & Hcol & Hnum).
  split; [done|]. split; [done|]. split; [done|].
  split; [by rewrite set_cells_ID_column|].
  cbn [set_cells rows]. rewrite Forall_fmap.
  eapply Forall_impl; [exact Hnum|]. intros r [z Hz]. cbn.
  exists z. destruct (decide (Pandas.has_ID id r)); [|done].
  by rewrite lookup_insert_ne.
Qed.





(* ===================================================================== *)
(** ** A whole run of the script with a click                             *)
(* ===================================================================== *)

Lemma show_item_sample (ids : list string) (c : string) (w : world) :
  c ∈ ids → show_item ids c w = (Return (Showing c), w).
Proof. intros Hc. unfold show_item. by rewrite bool_decide_eq_true_2. Qed.




(** X15.  A click on a stale page.  The session holds an id that is no
    longer among the user's remaining ids when the run with the click
    loads the table (the label was written meanwhile), and other ids
    remain.  The run then draws a new id from the remaining ones before
    the handler runs, and the label of the click is written to that id:
    a different one from the id the session held, whose cell is left as
    it was. *)
Theorem click_on_stale_page_labels_drawn_item (ids : list string)
    (net_pull net_push : option exn) (k : nat) (u i : string) (b : button)
    (w : world) (t : frame) :
  load_annotations ids (csv (startup net_pull w).2) = Return t →
  u ∈ columns t →
  current_id w = Held i →
  i ∉ remaining_ids u t →
  remaining_ids u t ≠ [] →
  ∃ c w2,
    c ∈ remaining_ids u t ∧ c ≠ i
    ∧ script ids net_pull net_push k u (Some b) w = (Return tt, w2)
    ∧ Call_random_choice (remaining_ids u t) ∈ events w2
    ∧ Assign_label c u (label_of b) ∈ events w2
    ∧ csv w2 = Some (saved (set_cells c u (label_of b) t))
    ∧ cell_at (set_cells c u (label_of b) t) i u = cell_at t i u.
Proof.
  intros Hload Hu Hheld Hi Hrem.
  destruct (startup_frame net_pull w) as (evs0 & w1 & Hstart & Hcur1 & _).
  rewrite Hstart in Hload. cbn [snd] in Hload.
  pose proof (load_annotations_columns_ID _ _ _ Hload) as HID.
  pose proof (load_annotations_ID_column _ _ _ Hload) as Hcol.
  set (w1' := with_events w1 [Call_load_annotations]).
  assert (load_for_user ids u w1 = (Return t, w1')) as Hlfu.
  { rewrite (load_for_user_run _ _ _ t) by done.
    by rewrite bool_decide_eq_true_2. }
  destruct (choose_item_cases ids k u t w1' Hu Hrem)
    as [(j & Hj & Hjin & _)|(_ & c & Hc & Hch)].
  { exfalso. cbn [w1' with_events current_id] in Hj.
    rewrite Hcur1, Hheld in Hj. injection Hj as <-. done. }
  pose proof (proj1 (remaining_ids_elem _ _ _ _ _ Hload Hu) Hc)
    as [Hin Hcell].
  assert (filter (Pandas.has_ID c) (rows t) ≠ []) as Hfound.
  { intros Hnil%filter_has_ID_nil. apply Hnil. rewrite Hcol.
    apply list_elem_of_fmap. by exists c. }
  assert (u ≠ "ID") as Hne1 by by eapply cell_at_None_not_ID.
  rewrite show_item_sample in Hch by done.
  exists c. eexists.
  split; [done|]. split; [by intros ->|].
  split.
  { unfold script, render.
    erewrite prog_bind_Return.
    2: { erewrite prog_bind_Return by exact Hstart. unfold select_item.
         erewrite prog_bind_Return by exact Hlfu. exact Hch. }
    cbn iota. rewrite (click_write_run _ _ _ _ _ _ t) by done.
    rewrite ensure_column_id by done. reflexivity. }
  cbn [csv events w1' with_events].
  split; [|split; [|split; [done|]]].
  - rewrite !elem_of_app, !elem_of_cons. auto 20.
  - rewrite !elem_of_app, !elem_of_cons. auto 20.
  - apply cell_at_set_cells_other; [done|]. left. by intros ->.
Qed.

Lemma click_on_stale_page_labels_drawn_item_witness :
  ∃ c w2,
    c ≠ "b"
    ∧ script ["a"; "b"; "c"] (Some ApiError) None 1 "alice" (Some Yes)
             w_labelled
      = (Return tt, w2)
    ∧ Assign_label c "alice" 1 ∈ events w2.
Proof.
  assert (load_annotations ["a"; "b"; "c"]
            (csv (startup (Some ApiError) w_labelled).2)
          = Return (reconcile ["a"; "b"; "c"] t0)) as Hload.
  { vm_compute. reflexivity. }
  assert ("alice" ∈ columns (reconcile ["a"; "b"; "c"] t0)) as Hu.
  { apply (bool_decide_unpack _). vm_compute. exact I. }
  assert (current_id w_labelled = Held "b") as Hheld by reflexivity.
  assert ("b" ∉ remaining_ids "alice" (reconcile ["a"; "b"; "c"] t0)) as Hi.
  { apply (bool_decide_unpack _). vm_compute. exact I. }
  assert (remaining_ids "alice" (reconcile ["a"; "b"; "c"] t0) ≠ []) as Hrem.
  { vm_compute. discriminate. }
  destruct (click_on_stale_page_labels_drawn_item ["a"; "b"; "c"]
              (Some ApiError) None 1 "alice" "b" Yes w_labelled _
              Hload Hu Hheld Hi Hrem)
    as (c & w2 & _ & Hne & Hrun & _ & Hev & _).
  exists c, w2. split; [exact Hne|]. split; [exact Hrun | exact Hev].
Defined.

Lemma reconciled_columns_ID (ids : list string) (t : frame) :
  reconciled ids t → "ID" ∈ columns t.
Proof.
  intros (_ & Hhead & _). destruct (columns t) as [|c cols]; [done|].
  destruct Hhead as [-> _]. left.
Qed.

Lemma reconciled_ensure_column (ids : list string) (u : string) (t : frame) :
  reconciled ids t → reconciled ids (ensure_column u t).
Proof.
  intros Hrec. pose proof (reconciled_columns_ID _ _ Hrec) as HID.
  destruct (decide (u ∈ columns t)) as [Hu|Hu].
  { by rewrite ensure_column_id. }
  destruct Hrec as (Hnd & Hhead & HGPT & Hcol & Hnum).
  assert (u ≠ "ID") as Hne1 by (by intros ->).
  assert (u ≠ "GPT") as Hne2 by (by intros ->).
  split; [done|]. split; [|split; [by apply ensure_column_incl|split]].
  - rewrite <- assign_column_ensure by done.
    unfold Pandas.assign_column, Pandas.set_header. cbn [columns].
    rewrite bool_decide_eq_false_2 by done.
    destruct (columns t) as [|c cols]; [done|]. destruct Hhead as [-> Hnot].
    split; [done|]. rewrite elem_of_app, elem_of_cons, elem_of_nil.
    intros [?|[?|?]]; done.
  - by rewrite ensure_column_ID_column.
  - rewrite <- assign_column_ensure by done.
    cbn [Pandas.assign_column rows]. rewrite Forall_fmap.
    eapply Forall_impl; [exact Hnum|]. intros r [z Hz]. cbn.
    exists z. by rewrite lookup_delete_ne.
Qed.

Lemma reconciled_readable (ids : list string) (t : frame) :
  reconciled ids t → readable t.
Proof.
  intros Hrec. split; [by eapply reconciled_columns_ID|].
  destruct Hrec as (_ & _ & _ & _ & Hnum). by apply numeric_GPT_ok.
Qed.

(** X16.  A click changes one cell and nothing else.  Whatever the click
    does (write, no-op on a labelled cell, unknown id) and whether or not
    the push succeeds, the file it leaves loads again, and in the loaded
    table every cell of every sample and every column of the table
    before the click, other than the user's cell for the clicked id,
    holds what it held: no other user's label, no other item and no GPT
    value is touched. *)
Theorem click_keeps_other_cells (ids : list string) (net : option exn)
    (u cur : string) (b : button) (w : world) (t : frame) :
  NoDup ids →
  load_annotations ids (csv w) = Return t →
  ∃ w' t',
    on_click ids net u cur b w = (Return tt, w')
    ∧ load_annotations ids (csv w') = Return t'
    ∧ ID_column t' = ID_column t
    ∧ ∀ id c, c ∈ columns t → id ≠ cur ∨ c ≠ u →
              cell_at t' id c = cell_at t id c.
Proof.
  intros Hnd Hload.
  pose proof (load_annotations_reconciled _ _ _ Hnd Hload) as Hrec.
  pose proof (reconciled_columns_ID _ _ Hrec) as HID.
  destruct (decide (filter (Pandas.has_ID cur) (rows t) = [])) as [Hnil|Hfound].
  { exists (with_events w
              [Call_load_annotations;
               St_error ("Internal error: ID " +:+ cur
                         +:+ " not found in annotation file.")]), t.
    split; [|done]. unfold on_click.
    rewrite (update_label_and_rerun_run _ _ _ _ _ _ t) by done.
    by rewrite Hnil. }
  destruct (cell_at t cur u) as [x|] eqn:Hcell.
  { eexists _, t. split.
    - eapply click_noop_run; [done| |done].
      by apply dec_stable; intros Hnot%filter_has_ID_nil.
    - done. }
  assert (u ≠ "ID") as Hne1 by by eapply cell_at_None_not_ID.
  assert (u ≠ "GPT") as Hne2 by by eapply unset_cell_not_GPT.
  set (t' := set_cells cur u (label_of b) (ensure_column u t)).
  assert (reconciled ids t') as Hrec'.
  { by apply reconciled_set_cells, reconciled_ensure_column. }
  eexists _, t'. split; [by apply click_write_run|].
  cbn [csv]. split.
  { rewrite load_saved by by eapply reconciled_readable.
    f_equal. by apply reconcile_reconciled. }
  split.
  { unfold t'. by rewrite set_cells_ID_column, ensure_column_ID_column. }
  intros id c Hc Hother. unfold t'.
  rewrite cell_at_set_cells_other by done.
  by apply cell_at_ensure_column_other.
Qed.

Lemma click_keeps_other_cells_witness :
  ∃ w' t',
    on_click ["a"; "b"; "c"] None "bob" "b" No w0 = (Return tt, w')
    ∧ load_annotations ["a"; "b"; "c"] (csv w') = Return t'
    ∧ cell_at t' "b" "alice" = Some (Num 1).
Proof.
  assert (NoDup ["a"; "b"; "c"]) as Hnd.
  { apply (bool_decide_unpack _). vm_compute. exact I. }
  assert (load_annotations ["a"; "b"; "c"] (csv w0)
          = Return (reconcile ["a"; "b"; "c"] t0)) as Hload.
  { vm_compute. reflexivity. }
  destruct (click_keeps_other_cells ["a"; "b"; "c"] None "bob" "b" No w0 _
              Hnd Hload)
    as (w' & t' & Hrun & Hload' & _ & Hkeep).
  exists w', t'. split; [exact Hrun|]. split; [exact Hload'|].
  rewrite Hkeep.
  - vm_compute. reflexivity.
  - apply (bool_decide_unpack _). vm_compute. exact I.
  - right. discriminate.
Defined.

(* ===================================================================== *)
(** ** Push and pull together                                             *)
(* ===================================================================== *)

(** X17.  Push then pull.  A push that goes through leaves the local file
    as the remote object, and a following pull that goes through brings
    exactly that file back, whatever has happened to the local file in
    between (changed or deleted); the pull reports success and leaves the
    remote object as it is. *)
Theorem push_then_pull_restores (w : world) (f : frame)
    (local : option frame) :
  csv w = Some f →
  ∃ w1 w2,
    upload_to_dropbox None w = (Return tt, w1)
    ∧ csv w1 = Some f ∧ dropbox w1 = Some f
    ∧ download_from_dropbox None
        (World local (dropbox w1) (current_id w1) (events w1))
      = (Return true, w2)
    ∧ csv w2 = Some f ∧ dropbox w2 = Some f
    ∧ current_id w2 = current_id w.
Proof.
  intros Hcsv. rewrite upload_to_dropbox_run, Hcsv.
  eexists _, _. split; [reflexivity|]. cbn [csv dropbox current_id events].
  split; [done|]. split; [done|].
  rewrite download_from_dropbox_run. cbn [csv dropbox current_id events].
  split; [reflexivity|]. done.
Qed.

Lemma push_then_pull_restores_witness :
  ∃ w1 w2,
    upload_to_dropbox None w0 = (Return tt, w1)
    ∧ download_from_dropbox None
        (World None (dropbox w1) (current_id w1) (events w1))
      = (Return true, w2)
    ∧ csv w2 = Some t0.
Proof.
  destruct (push_then_pull_restores w0 t0 None eq_refl)
    as (w1 & w2 & Hup & _ & _ & Hdown & Hcsv & _).
  exists w1, w2. split; [exact Hup|]. split; [exact Hdown | exact Hcsv].
Defined.


